(** * Grow calculator: the four calculation engines of [grow_cal_8.62.py]

    The script is a Streamlit page.  Its logic is four straight-line
    calculations (yield, energy, extraction, reverse recommendation) over
    Python numbers.  The embedding below follows the script section by
    section and keeps its variable names.

    Python numbers are modelled through the interface [PyNum].  Two
    instances are given: exact rationals ([Q]), the arithmetic the design
    document reasons in, and IEEE binary64 ([float]), the arithmetic the
    interpreter really performs.  Numeric properties are proved over [Q],
    and say so where rounding can change them; what depends on comparisons
    and failures alone (the bottleneck warning, the unnamed row) is proved
    over binary64 as well, and the worked scenarios are replayed there. *)

From Stdlib Require Import QArith Qround Qminmax Qabs Lqa Lia ZArith Bool List String Ascii.
From Stdlib Require Import Floats Permutation.
Import ListNotations.

Set Implicit Arguments.
Open Scope string_scope.
Open Scope list_scope.

(** ** Python run-time: exceptions, results, names *)

Module Py.

Inductive PyError : Type :=
  | ZeroDivisionError
  | NameError (name : string)
  | TypeError
  | ValueError
  | OverflowError.

Inductive result (A : Type) : Type :=
  | Ok (value : A)
  | Raise (exn : PyError).
Arguments Ok {A} value.
Arguments Raise {A} exn.

Definition bind {A B} (c : result A) (k : A -> result B) : result B :=
  match c with
  | Ok a => k a
  | Raise e => Raise e
  end.

Definition returns {A} (c : result A) : Prop := exists a, c = Ok a.
Definition raises {A} (c : result A) : Prop := exists e, c = Raise e.

(** [needle in hay] on Python strings: substring search, case-sensitive. *)
Fixpoint str_in (needle hay : string) : bool :=
  if String.prefix needle hay then true
  else match hay with
       | EmptyString => false
       | String _ rest => str_in needle rest
       end.

(** Name lookup: a name is found when the module or the built-ins bind it. *)
Definition resolves (bound : list string) (name : string) : bool :=
  existsb (String.eqb name) bound.

(** The numbers of the script: what [+], [*], [/], [<], [==] and
    [math.ceil] do on them, and how a literal is read. *)
Class PyNum (num : Type) : Type := {
  lit : Q -> num;
  add : num -> num -> num;
  mul : num -> num -> num;
  quo : num -> num -> num;
  ltb : num -> num -> bool;
  eqb : num -> num -> bool;
  ceil : num -> result Z
}.

End Py.
Import Py.

Declare Scope py_scope.
Delimit Scope py_scope with py.
Notation "x <- c ;; k" := (Py.bind c (fun x => k))
  (at level 61, c at next level, right associativity) : py_scope.
Infix "+" := Py.add : py_scope.
Infix "*" := Py.mul : py_scope.
Infix "/" := Py.quo : py_scope.
Notation "x <? y" := (Py.ltb x y) : py_scope.
Notation "x >? y" := (Py.ltb y x) : py_scope.
Notation "x =? y" := (Py.eqb x y) : py_scope.

(** Exact rational arithmetic: the numbers of the design document.  It
    agrees with the interpreter wherever nothing is rounded; a property
    proved in it alone is stated as holding in exact arithmetic. *)
#[export] Instance QNum : PyNum Q := {|
  lit := fun q => q;
  add := Qplus;
  mul := Qmult;
  quo := Qdiv;
  ltb := fun x y => negb (Qle_bool y x);
  eqb := Qeq_bool;
  ceil := fun q => Ok (Qceiling q)
|}.

(** IEEE binary64.  A literal [n/d] is read as the correctly rounded
    quotient of two exactly representable integers (below 2^53 here), which
    is the double nearest to the decimal. *)
Definition float_of_Z (z : Z) : float :=
  match z with
  | Z0 => PrimFloat.zero
  | Zpos _ => PrimFloat.of_uint63 (Uint63.of_Z z)
  | Zneg p => PrimFloat.opp (PrimFloat.of_uint63 (Uint63.of_Z (Zpos p)))
  end.

(** The rational a finite double stands for. *)
Definition float_to_Q (f : float) : option Q :=
  match Prim2SF f with
  | S754_zero _ => Some 0%Q
  | S754_finite s m e =>
      let mag := (inject_Z (Zpos m) * Qpower 2 e)%Q in
      Some (if s then Qopp mag else mag)
  | S754_infinity _ | S754_nan => None
  end.

(** [math.ceil] on a double: an integer, or an exception on inf and nan. *)
Definition float_ceil (f : float) : result Z :=
  match Prim2SF f with
  | S754_infinity _ => Raise OverflowError
  | S754_nan => Raise ValueError
  | _ => match float_to_Q f with
         | Some q => Ok (Qceiling q)
         | None => Raise ValueError
         end
  end.

#[export] Instance FloatNum : PyNum float := {|
  lit := fun q => PrimFloat.div (float_of_Z (Qnum q)) (float_of_Z (Zpos (Qden q)));
  add := PrimFloat.add;
  mul := PrimFloat.mul;
  quo := PrimFloat.div;
  ltb := PrimFloat.ltb;
  eqb := PrimFloat.eqb;
  ceil := float_ceil
|}.

(** ** The script, generic in the number type *)

(** The options of the select boxes and radio buttons. *)
Inductive Medium := Soil | CocoCoir | DWCHydro | Aeroponics.
Inductive LightTech := HighEndLED | BudgetLED | HPS_CMH | BlurpleCFL.
Inductive Genetics := PhotoperiodFeminized | Autoflower | RegularBagseed.
Inductive Training := Topping | LST | ScrogNet | Mainlining.
Inductive InputMaterial := DryCuredFlower | FreshFrozenWPFF.
Inductive TargetUnit := Ounces | Pounds | Kilograms.

(** The three warnings under the bottleneck chart. *)
Inductive Factor := LIGHT | SPACE | ROOTS.

Definition is_scrog (t : Training) : bool :=
  match t with ScrogNet => true | _ => false end.

Section Script.

Context {num : Type} `{PyNum num}.
Local Open Scope py_scope.

(** [x / y] raises on a zero divisor. *)
Definition py_div (x y : num) : result num :=
  if y =? lit 0 then Raise ZeroDivisionError else Ok (x / y).

(** The built-in [min(a, b, c)]: the first smallest argument. *)
Definition py_min3 (a b c : num) : num :=
  let m := if b <? a then b else a in
  if c <? m then c else m.

(** [len(xs)] as a number. *)
Definition py_len {A} (xs : list A) : num :=
  lit (inject_Z (Z.of_nat (List.length xs))).

(** *** Sidebar: global configuration *)

Record Config : Type := {
  kwh_cost : num;
  grower_skill : num;
  GRAMS_PER_WATT_LED : num;
  MAX_G_PER_SQFT : num
}.

(** *** Tab 1: yield simulator *)

Record YieldInput : Type := {
  length : num;
  width : num;
  system_type : Medium;
  true_watts : num;
  light_type : LightTech;
  co2_supplement : bool;
  plant_count : num;
  pot_size : num;
  strain_type : Genetics;
  training : list Training
}.

(** The four metric cards, as numbers before formatting. *)
Record Metrics : Type := {
  m1_oz : num;
  m2_gpw : num;
  m3_density : num;
  m4_market_value : num
}.

Section Yield.

Variable cfg : Config.
Variable i : YieldInput.

Definition sq_ft : num := length i * width i.

Definition light_eff : num :=
  match light_type i with
  | HighEndLED => lit 1.0
  | BudgetLED => lit 0.85
  | HPS_CMH => lit 0.70
  | BlurpleCFL => lit 0.50
  end.

Definition med_eff : num :=
  match system_type i with
  | Aeroponics => lit 1.25
  | DWCHydro => lit 1.20
  | CocoCoir => lit 1.10
  | Soil => lit 1.0
  end.

Definition train_mult : num :=
  let train_mult := lit 1.0 + py_len (training i) * lit 0.08 in
  if existsb is_scrog (training i) then train_mult + lit 0.05 else train_mult.

Definition co2_mult : num :=
  if co2_supplement i then lit 1.25 else lit 1.0.

Definition limit_light_g : num :=
  true_watts i * GRAMS_PER_WATT_LED cfg * light_eff * co2_mult.

Definition limit_space_g : num := sq_ft * MAX_G_PER_SQFT cfg.

Definition plant_ceiling : num :=
  match strain_type i with
  | Autoflower => lit 400
  | _ => lit 800
  end.

Definition root_eff : num :=
  match system_type i with
  | DWCHydro | Aeroponics => lit 1.5
  | _ => lit 1.0
  end.

Definition per_plant_max : num :=
  let per_plant_max := lit 30 + pot_size i * lit 35 * root_eff in
  if per_plant_max >? plant_ceiling then plant_ceiling else per_plant_max.

Definition limit_root_g : num := per_plant_max * plant_count i.

Definition bottleneck : num :=
  py_min3 limit_light_g limit_space_g limit_root_g.

Definition max_physics : num := true_watts i * lit 3.0.

Definition predicted_yield_g : num :=
  let predicted_yield_g := bottleneck * grower_skill cfg * train_mult * med_eff in
  if predicted_yield_g >? max_physics then max_physics else predicted_yield_g.

(** The metric cards, in the order the script evaluates them.  The two
    divisions by an input are the ones that can raise. *)
Definition metrics : result Metrics :=
  let oz := predicted_yield_g / lit 28.35 in
  gpw <- py_div predicted_yield_g (true_watts i) ;;
  density <- py_div predicted_yield_g sq_ft ;;
  Ok {| m1_oz := oz; m2_gpw := gpw; m3_density := density;
        m4_market_value := predicted_yield_g / lit 28.35 * lit 150 |}.

(** The warning under the chart: [if]/[elif]/[elif] with no [else]. *)
Definition limiting_factor : option Factor :=
  if bottleneck =? limit_light_g then Some LIGHT
  else if bottleneck =? limit_space_g then Some SPACE
  else if bottleneck =? limit_root_g then Some ROOTS
  else None.

(** The engine as a step of the tab.  Lines 67 to 120 hold no [raise], no
    [assert], no [st.stop] and no division: the engine runs to its end on
    whatever the widgets hand it. *)
Definition yield_engine : result num := Ok predicted_yield_g.

(** The whole tab: engine, metric cards, bottleneck warning. *)
Definition yield_tab : result (num * Metrics * option Factor) :=
  g <- yield_engine ;;
  m <- metrics ;;
  Ok (g, m, limiting_factor).

End Yield.

(** *** Tab 2: precision energy *)

(** The three [number_input]s of the cycle duration. *)
Record Cycle : Type := {
  days_veg : num;
  days_flower : num;
  days_dry : num
}.

(** A row of the equipment table (the dictionary built by [add_device]). *)
Record Device : Type := {
  name : string;
  watts : num;
  veg_duty : num;
  flower_duty : num;
  dry_duty : num
}.

Definition add_device (name : string) (watts duty_veg duty_flower duty_dry : num)
  : Device :=
  {| name := name; watts := watts; veg_duty := duty_veg;
     flower_duty := duty_flower; dry_duty := duty_dry |}.

Definition default_devices (true_watts : num) : list Device :=
  [ add_device "Main Grow Light" true_watts (lit 1.0) (lit 1.0) (lit 0.0);
    add_device "Inline Fan (Exhaust)" (lit 60) (lit 0.5) (lit 1.0) (lit 0.5);
    add_device "Clip Fans" (lit 30) (lit 1.0) (lit 1.0) (lit 1.0);
    add_device "Dehumidifier" (lit 400) (lit 0.1) (lit 0.4) (lit 0.3);
    add_device "AC Unit" (lit 800) (lit 0.0) (lit 0.0) (lit 0.0);
    add_device "Humidifier" (lit 50) (lit 0.5) (lit 0.1) (lit 0.0);
    add_device "Heater" (lit 1000) (lit 0.0) (lit 0.0) (lit 0.0) ].

(** The dictionary [phase_costs], keys "Veg", "Flower" and "Dry". *)
Record PhaseCosts : Type := {
  Veg : num;
  Flower : num;
  Dry : num
}.

(** What the loop over the rows carries. *)
Record Bill : Type := {
  total_kwh : num;
  phase_costs : PhaseCosts
}.

Section Energy.

Variable cfg : Config.
Variable cycle : Cycle.

(** The test [if "Light" in row['name']]. *)
Definition is_light (row : Device) : bool := str_in "Light" (name row).

Definition kwh_veg (row : Device) : num :=
  let w := watts row in
  if is_light row
  then (w * lit 18 * veg_duty row * days_veg cycle) / lit 1000
  else (w * lit 24 * veg_duty row * days_veg cycle) / lit 1000.

Definition kwh_flow (row : Device) : num :=
  let w := watts row in
  if is_light row
  then (w * lit 12 * flower_duty row * days_flower cycle) / lit 1000
  else (w * lit 24 * flower_duty row * days_flower cycle) / lit 1000.

Definition kwh_dry (row : Device) : num :=
  let w := watts row in
  if is_light row
  then lit 0
  else (w * lit 24 * dry_duty row * days_dry cycle) / lit 1000.

(** One turn of the loop. *)
Definition bill_row (b : Bill) (row : Device) : Bill :=
  {| total_kwh := total_kwh b + (kwh_veg row + kwh_flow row + kwh_dry row);
     phase_costs :=
       {| Veg := Veg (phase_costs b) + kwh_veg row * kwh_cost cfg;
          Flower := Flower (phase_costs b) + kwh_flow row * kwh_cost cfg;
          Dry := Dry (phase_costs b) + kwh_dry row * kwh_cost cfg |} |}.

Definition empty_bill : Bill :=
  {| total_kwh := lit 0;
     phase_costs := {| Veg := lit 0; Flower := lit 0; Dry := lit 0 |} |}.

Definition bill (edited_df : list Device) : Bill :=
  fold_left bill_row edited_df empty_bill.

Definition total_cost (edited_df : list Device) : num :=
  total_kwh (bill edited_df) * kwh_cost cfg.

(** [total_cost / predicted_yield_g if predicted_yield_g > 0 else 0] *)
Definition cost_per_gram (total_cost predicted_yield_g : num) : result num :=
  if predicted_yield_g >? lit 0
  then py_div total_cost predicted_yield_g
  else Ok (lit 0).


End Energy.

(** *** Tab 3: hash and rosin *)

(** The sliders of the chosen branch. *)
Inductive ExtractionParams : Type :=
| PressReturn (return_rate : num)
| WashAndPress (wash_yield press_yield : num).

Record Extraction : Type := {
  hash_g : option num;
  rosin_g : num
}.

Definition input_g (input_amount_oz : num) : num := input_amount_oz * lit 28.35.

(** Line 236: the default of the input-weight box, the prediction in ounces. *)
Definition input_amount_oz_default (predicted_yield_g : num) : num :=
  predicted_yield_g / lit 28.35.

Definition extraction (input_g : num) (params : ExtractionParams) : Extraction :=
  match params with
  | PressReturn return_rate =>
      {| hash_g := None; rosin_g := input_g * (return_rate / lit 100) |}
  | WashAndPress wash_yield press_yield =>
      let hash_g := input_g * (wash_yield / lit 100) in
      {| hash_g := Some hash_g; rosin_g := hash_g * (press_yield / lit 100) |}
  end.

(** The branch follows the radio button. *)
Definition material_of (params : ExtractionParams) : InputMaterial :=
  match params with
  | PressReturn _ => DryCuredFlower
  | WashAndPress _ _ => FreshFrozenWPFF
  end.

(** *** Tab 4: reverse engineer *)

Definition target_g (target_unit : TargetUnit) (target_val : num) : num :=
  match target_unit with
  | Ounces => target_val * lit 28.35
  | Pounds => target_val * lit 453.59
  | Kilograms => target_val * lit 1000
  end.

Definition req_watts (target_g : num) : num := target_g / lit 1.5.
Definition req_sqft (target_g : num) : num := target_g / lit 40.0.

(** The pair [(tent_rec, light_rec)] chosen by the [if]/[elif] chain. *)
Definition configuration (req_sqft : num) : string * string :=
  if req_sqft <? lit 5 then ("2x2.5 or 2x4 Tent", "200W-300W LED")
  else if req_sqft <? lit 10 then ("3x3 or 2x4 Tent", "300W-480W LED")
  else if req_sqft <? lit 17 then ("4x4 Tent", "600W-720W Bar LED")
  else if req_sqft <? lit 26 then ("5x5 Tent", "800W-1000W Bar LED + CO2")
  else ("Multiple Tents or Dedicated Room", "Multi-light Setup").

Definition tent_rec (req_sqft : num) : string := fst (configuration req_sqft).
Definition light_rec (req_sqft : num) : string := snd (configuration req_sqft).

(** [math.ceil(target_g / 112)] in a module whose bound names are [bound]:
    the name [math] is looked up first. *)
Definition est_pots_in (bound : list string) (target_g : num) : result Z :=
  if resolves bound "math"
  then ceil (target_g / lit 112)
  else Raise (NameError "math").

End Script.

(** *** The table as the editor returns it *)

Section EditedTable.

Context {num : Type} `{PyNum num}.



Variable cfg : @Config num.
Variable cycle : @Cycle num.



End EditedTable.

(** *** The names the script can see *)

(** Lines 1 to 4: the import statements. *)
Definition imported_names : list string :=
  ["st"; "pd"; "np"; "date"; "timedelta"].

(** Every name the script assigns at module level ([with] blocks open no
    scope), including those bound only on some paths. *)
Definition assigned_names : list string :=
  ["currency_symbol"; "kwh_cost"; "grower_skill"; "GRAMS_PER_WATT_LED";
   "MAX_G_PER_SQFT"; "tab_yield"; "tab_power"; "tab_extract"; "tab_reverse";
   "col1"; "col2"; "col3"; "length"; "width"; "sq_ft"; "system_type";
   "true_watts"; "light_type"; "co2_supplement"; "plant_count"; "pot_size";
   "strain_type"; "training"; "light_eff"; "med_eff"; "train_mult";
   "co2_mult"; "limit_light_g"; "limit_space_g"; "plant_ceiling"; "root_eff";
   "per_plant_max"; "limit_root_g"; "bottleneck"; "predicted_yield_g";
   "max_physics"; "m1"; "m2"; "m3"; "m4"; "chart_data";
   "c1"; "c2"; "c3"; "days_veg"; "days_flower"; "days_dry"; "add_device";
   "default_devices"; "df_devices"; "edited_df"; "total_kwh"; "phase_costs";
   "index"; "row"; "w"; "kwh_veg"; "kwh_flow"; "kwh_dry"; "total_cost";
   "c_tot"; "c_g"; "cost_per_gram";
   "input_type"; "col_in"; "col_calc"; "input_amount_oz"; "input_g";
   "return_rate"; "rosin_g"; "wash_yield"; "press_yield"; "hash_g";
   "target_unit"; "target_val"; "target_g"; "req_watts"; "req_sqft";
   "col_rec1"; "col_rec2"; "tent_rec"; "light_rec"].

(** Python's built-in functions and constants (the built-in exception
    classes, whose names all end in Error, Exception, Warning, Exit,
    Interrupt, Iteration or Group, are left out). *)
Definition builtin_names : list string :=
  ["abs"; "aiter"; "all"; "anext"; "any"; "ascii"; "bin"; "bool";
   "breakpoint"; "bytearray"; "bytes"; "callable"; "chr"; "classmethod";
   "compile"; "complex"; "delattr"; "dict"; "dir"; "divmod"; "enumerate";
   "eval"; "exec"; "filter"; "float"; "format"; "frozenset"; "getattr";
   "globals"; "hasattr"; "hash"; "help"; "hex"; "id"; "input"; "int";
   "isinstance"; "issubclass"; "iter"; "len"; "list"; "locals"; "map";
   "max"; "memoryview"; "min"; "next"; "object"; "oct"; "open"; "ord";
   "pow"; "print"; "property"; "range"; "repr"; "reversed"; "round"; "set";
   "setattr"; "slice"; "sorted"; "staticmethod"; "str"; "sum"; "super";
   "tuple"; "type"; "vars"; "zip"; "__import__";
   "True"; "False"; "None"; "Ellipsis"; "NotImplemented"; "__debug__";
   "quit"; "exit"; "copyright"; "credits"; "license"].

Definition script_names : list string :=
  imported_names ++ assigned_names ++ builtin_names.

(** Line 312 as the script runs it. *)
Definition est_pots {num : Type} `{PyNum num} (target_g : num) : result Z :=
  est_pots_in script_names target_g.

(** Line 312 as it would run after [import math]. *)
Definition est_pots_with_math {num : Type} `{PyNum num} (target_g : num)
  : result Z :=
  est_pots_in ("math" :: script_names) target_g.

(** The whole tab: conversion, requirements, suggestions, plant count. *)
Record Recommendation (num : Type) : Type := {
  rec_target_g : num;
  rec_req_watts : num;
  rec_req_sqft : num;
  rec_tent : string;
  rec_light : string;
  rec_est_pots : Z
}.

Definition recommend {num : Type} `{PyNum num}
  (target_unit : TargetUnit) (target_val : num) : result (Recommendation num) :=
  let g := target_g target_unit target_val in
  let w := req_watts g in
  let a := req_sqft g in
  (n <- est_pots g ;;
   Ok {| rec_target_g := g; rec_req_watts := w; rec_req_sqft := a;
         rec_tent := tent_rec a; rec_light := light_rec a;
         rec_est_pots := n |})%py.

(** ** The worked scenarios of the design document, in any arithmetic *)

Section Scenarios.

Context {num : Type} `{PyNum num}.

(** Sidebar defaults: 0.14 per kWh, skill 1.0, 2.2 g/W, 65 g/sqft. *)
Definition scenario_cfg : Config :=
  {| kwh_cost := lit 0.14; grower_skill := lit 1.0;
     GRAMS_PER_WATT_LED := lit 2.2; MAX_G_PER_SQFT := lit 65.0 |}.

(** The widgets' default values: a 4x4 tent, 600 W, four 5-gallon pots. *)
Definition scenario_input : YieldInput :=
  {| length := lit 4; width := lit 4; system_type := Soil;
     true_watts := lit 600; light_type := HighEndLED; co2_supplement := false;
     plant_count := lit 4; pot_size := lit 5.0;
     strain_type := PhotoperiodFeminized; training := [] |}.

(** The same tent with another wattage. *)
Definition with_watts (w : num) (i : YieldInput) : YieldInput :=
  {| length := length i; width := width i; system_type := system_type i;
     true_watts := w; light_type := light_type i;
     co2_supplement := co2_supplement i; plant_count := plant_count i;
     pot_size := pot_size i; strain_type := strain_type i;
     training := training i |}.

(** The default cycle: 35 days of veg, 63 of flower, 14 of drying. *)
Definition scenario_cycle : Cycle :=
  {| days_veg := lit 35; days_flower := lit 63; days_dry := lit 14 |}.

End Scenarios.

(** ** The vocabulary of the properties, in exact arithmetic *)

Local Open Scope Q_scope.

(** *** Yield *)

(** Which ceiling a warning names. *)
Definition limit_of (cfg : Config) (i : YieldInput) (f : Factor) : Q :=
  match f with
  | LIGHT => limit_light_g cfg i
  | SPACE => limit_space_g cfg i
  | ROOTS => limit_root_g i
  end.

(** The least of the three ceilings. *)
Definition least_limit (cfg : Config) (i : YieldInput) : Q :=
  Qmin (Qmin (limit_light_g cfg i) (limit_space_g cfg i)) (limit_root_g i).

(** The bounds the input widgets of tab 1 enforce (lines 48 to 63). *)
Definition in_widget_range (i : YieldInput) : Prop :=
  (1 <= length i <= 20) /\ (1 <= width i <= 20)
  /\ (50 <= true_watts i <= 2000) /\ (1 <= plant_count i <= 50)
  /\ (0.5 <= pot_size i <= 30).

(** *** Energy *)

Inductive Phase := VegPhase | FlowerPhase | DryPhase.

(** The design document's table of active hours per day. *)
Definition active_hours (light : bool) (p : Phase) : Q :=
  match light, p with
  | true, VegPhase => 18
  | true, FlowerPhase => 12
  | true, DryPhase => 0
  | false, _ => 24
  end.

Definition duty (row : Device) (p : Phase) : Q :=
  match p with
  | VegPhase => veg_duty row
  | FlowerPhase => flower_duty row
  | DryPhase => dry_duty row
  end.

Definition phase_days (cycle : Cycle) (p : Phase) : Q :=
  match p with
  | VegPhase => days_veg cycle
  | FlowerPhase => days_flower cycle
  | DryPhase => days_dry cycle
  end.

(** The design document's formula for one device in one phase. *)
Definition phase_energy (cycle : Cycle) (row : Device) (p : Phase) : Q :=
  watts row * active_hours (is_light row) p * duty row p * phase_days cycle p
  / 1000.

(** What the script computes for one device in one phase. *)
Definition kwh (cycle : Cycle) (row : Device) (p : Phase) : Q :=
  match p with
  | VegPhase => kwh_veg cycle row
  | FlowerPhase => kwh_flow cycle row
  | DryPhase => kwh_dry cycle row
  end.

Definition Qsum {A} (f : A -> Q) (xs : list A) : Q :=
  fold_right (fun x acc => f x + acc) 0 xs.

(** [needle] occurs in [hay], exactly as written. *)
Definition occurs_in (needle hay : string) : Prop :=
  exists pre post : string, hay = (pre ++ needle ++ post)%string.

(** The default light of the equipment table, at 600 W. *)
Definition main_light {num : Type} `{PyNum num} : Device :=
  add_device "Main Grow Light" (lit 600) (lit 1.0) (lit 1.0) (lit 0.0).

(** A light whose name is typed in lower case, on for half of the dry phase. *)
Definition lower_case_light : Device :=
  add_device (num := Q) "main light" 600 1.0 1.0 0.5.

(** *** Extraction *)

Definition is_percentage (p : Q) : Prop := 0 <= p <= 100.

Definition percentages (params : ExtractionParams) : Prop :=
  match params with
  | PressReturn return_rate => is_percentage return_rate
  | WashAndPress wash_yield press_yield =>
      is_percentage wash_yield /\ is_percentage press_yield
  end.

(** *** Recommendation *)

(** The design document's five bands of required area. *)
Inductive Tier := Tier1 | Tier2 | Tier3 | Tier4 | Tier5.

Definition band_from (t : Tier) : Q :=
  match t with
  | Tier1 => 0 | Tier2 => 5 | Tier3 => 10 | Tier4 => 17 | Tier5 => 26
  end.

Definition band_upto (t : Tier) : option Q :=
  match t with
  | Tier1 => Some 5 | Tier2 => Some 10 | Tier3 => Some 17 | Tier4 => Some 26
  | Tier5 => None
  end.

(** Lower bound included, upper bound excluded. *)
Definition in_band (t : Tier) (x : Q) : Prop :=
  band_from t <= x /\ match band_upto t with Some hi => x < hi | None => True end.

Definition tier_labels (t : Tier) : string * string :=
  match t with
  | Tier1 => ("2x2.5 or 2x4 Tent", "200W-300W LED")
  | Tier2 => ("3x3 or 2x4 Tent", "300W-480W LED")
  | Tier3 => ("4x4 Tent", "600W-720W Bar LED")
  | Tier4 => ("5x5 Tent", "800W-1000W Bar LED + CO2")
  | Tier5 => ("Multiple Tents or Dedicated Room", "Multi-light Setup")
  end.

Definition grams_per (u : TargetUnit) : Q :=
  match u with
  | Ounces => 28.35
  | Pounds => 453.59
  | Kilograms => 1000
  end.

(** *** Vocabulary of the further properties *)

(** The prediction before the cap of line 120. *)
Definition uncapped_yield_g (cfg : Config) (i : YieldInput) : Q :=
  bottleneck cfg i * grower_skill cfg * train_mult i * med_eff i.

(** The same input with the CO2 box set to [b]. *)
Definition with_co2 (b : bool) (i : @YieldInput Q) : @YieldInput Q :=
  {| length := length i; width := width i; system_type := system_type i;
     true_watts := true_watts i; light_type := light_type i;
     co2_supplement := b; plant_count := plant_count i;
     pot_size := pot_size i; strain_type := strain_type i;
     training := training i |}.

(** The four options of the training multiselect. *)
Definition all_training : list Training := [Topping; LST; ScrogNet; Mainlining].

(** Calibration and skill as the sidebar means them: positive. *)
Definition positive_config (cfg : Config) : Prop :=
  0 < grower_skill cfg /\ 0 < GRAMS_PER_WATT_LED cfg /\ 0 < MAX_G_PER_SQFT cfg.

(** An input and a configuration with nothing negative in them. *)
Definition nothing_negative (cfg : Config) (i : YieldInput) : Prop :=
  0 <= length i /\ 0 <= width i /\ 0 <= true_watts i /\ 0 <= plant_count i
  /\ 0 <= pot_size i /\ 0 <= grower_skill cfg
  /\ 0 <= GRAMS_PER_WATT_LED cfg /\ 0 <= MAX_G_PER_SQFT cfg.

(** A row and a cycle with nothing negative in them. *)
Definition sensible_row (row : Device) : Prop :=
  0 <= watts row /\ 0 <= veg_duty row /\ 0 <= flower_duty row
  /\ 0 <= dry_duty row.

Definition sensible_cycle (cycle : Cycle) : Prop :=
  0 <= days_veg cycle /\ 0 <= days_flower cycle /\ 0 <= days_dry cycle.

(** Two rows that differ at most in their names. *)
Definition same_load (r r' : Device) : Prop :=
  watts r == watts r' /\ veg_duty r == veg_duty r'
  /\ flower_duty r == flower_duty r' /\ dry_duty r == dry_duty r'.

(** The bounds of the sliders of tab 3 (lines 242, 250 and 251). *)
Definition in_slider_range (params : ExtractionParams) : Prop :=
  match params with
  | PressReturn return_rate => 10 <= return_rate <= 30
  | WashAndPress wash_yield press_yield =>
      1 <= wash_yield <= 8 /\ 40 <= press_yield <= 90
  end.

(** *** The order of an arithmetic *)

Section OrderVocabulary.

Context {num : Type} {N : PyNum num}.

(** [x == x]: true of every number, false of a NaN. *)
Definition is_number (x : num) : Prop := Py.eqb x x = true.

(** What [<] and [==] obey in both arithmetics. *)
Record PyOrder : Prop := {
  py_ltb_asym : forall x y : num, Py.ltb x y = true -> Py.ltb y x = false;
  py_ltb_trans : forall x y z : num,
    Py.ltb x y = true -> Py.ltb y z = true -> Py.ltb x z = true;
  py_eqb_ltb : forall x y z : num, Py.eqb x y = true -> Py.ltb z x = Py.ltb z y;
  py_ltb_total : forall x y : num,
    is_number x -> is_number y ->
    Py.ltb x y = false -> Py.ltb y x = false -> Py.eqb x y = true
}.

(** The ceiling a warning names, in any arithmetic. *)
Definition ceiling (cfg : Config) (i : YieldInput) (f : Factor) : num :=
  match f with
  | LIGHT => limit_light_g cfg i
  | SPACE => limit_space_g cfg i
  | ROOTS => limit_root_g i
  end.

(** None of the three ceilings is smaller than [x]. *)
Definition none_below (cfg : Config) (i : YieldInput) (x : num) : Prop :=
  Py.ltb (limit_light_g cfg i) x = false
  /\ Py.ltb (limit_space_g cfg i) x = false
  /\ Py.ltb (limit_root_g i) x = false.

(** The warning names a smallest ceiling, light before space before roots:
    the bottleneck is a smallest ceiling, a warning is shown, the ceiling it
    names equals the bottleneck, and each warning is shown exactly when its
    ceiling is a smallest one and no ceiling before it in the chain is. *)
Definition names_smallest_ceiling (cfg : Config) (i : YieldInput) : Prop :=
  none_below cfg i (bottleneck cfg i)
  /\ (exists f, limiting_factor cfg i = Some f
                /\ Py.eqb (bottleneck cfg i) (ceiling cfg i f) = true
                /\ none_below cfg i (ceiling cfg i f))
  /\ (limiting_factor cfg i = Some LIGHT
      <-> none_below cfg i (limit_light_g cfg i))
  /\ (limiting_factor cfg i = Some SPACE
      <-> none_below cfg i (limit_space_g cfg i)
          /\ ~ none_below cfg i (limit_light_g cfg i))
  /\ (limiting_factor cfg i = Some ROOTS
      <-> none_below cfg i (limit_root_g i)
          /\ ~ none_below cfg i (limit_light_g cfg i)
          /\ ~ none_below cfg i (limit_space_g cfg i)).

End OrderVocabulary.

Arguments PyOrder {num} N.

(** The order of binary64, read off the IEEE comparison of the standard
    library: a NaN has no place in it; the others are ordered by class
    (-inf, negative, zero, positive, +inf), then exponent, then mantissa. *)
Definition sf_key (f : spec_float) : option (Z * Z * Z) :=
  match f with
  | S754_nan => None
  | S754_infinity true => Some (-2, 0, 0)%Z
  | S754_infinity false => Some (2, 0, 0)%Z
  | S754_zero _ => Some (0, 0, 0)%Z
  | S754_finite true m e => Some (-1, - e, Zneg m)%Z
  | S754_finite false m e => Some (1, e, Zpos m)%Z
  end.

Definition float_key (x : float) : option (Z * Z * Z) := sf_key (Prim2SF x).

Definition lex3 (a b : Z * Z * Z) : comparison :=
  let '(a1, a2, a3) := a in
  let '(b1, b2, b3) := b in
  match (a1 ?= b1)%Z with
  | Eq => match (a2 ?= b2)%Z with
          | Eq => (a3 ?= b3)%Z
          | c => c
          end
  | c => c
  end.

Definition lex3_lt (a b : Z * Z * Z) : Prop :=
  let '(a1, a2, a3) := a in
  let '(b1, b2, b3) := b in
  (a1 < b1 \/ (a1 = b1 /\ (a2 < b2 \/ (a2 = b2 /\ a3 < b3))))%Z.

Definition lex3_eq (a b : Z * Z * Z) : Prop :=
  let '(a1, a2, a3) := a in
  let '(b1, b2, b3) := b in
  (a1 = b1 /\ a2 = b2 /\ a3 = b3)%Z.

(** A long narrow tent whose light and space ceilings meet: 2 x 11 ft,
    650 W, seven plants. *)
Definition narrow_tent {num : Type} `{PyNum num} : YieldInput :=
  {| length := lit 2; width := lit 11; system_type := Soil;
     true_watts := lit 650; light_type := HighEndLED; co2_supplement := false;
     plant_count := lit 7; pot_size := lit 5.0;
     strain_type := PhotoperiodFeminized; training := [] |}.

(** ** Exact arithmetic: the tests of the [Q] instance *)

Ltac py_unfold :=
  cbn [lit add mul quo ltb eqb ceil QNum] in *.

Lemma Qltb_cases (x y : Q) :
  (Py.ltb x y = true /\ x < y) \/ (Py.ltb x y = false /\ y <= x).
Proof.
  py_unfold. destruct (Qle_bool y x) eqn:E.
  - right. split; [reflexivity | now apply Qle_bool_iff].
  - left. split; [reflexivity |].
    apply Qnot_le_lt. intro Hle. apply Qle_bool_iff in Hle. congruence.
Qed.

Lemma Qeqb_cases (x y : Q) :
  (Py.eqb x y = true /\ x == y) \/ (Py.eqb x y = false /\ ~ x == y).
Proof.
  py_unfold. destruct (Qeq_bool x y) eqn:E.
  - left. split; [reflexivity | now apply Qeq_bool_iff].
  - right. split; [reflexivity |].
    intro Heq. apply Qeq_bool_iff in Heq. congruence.
Qed.

(** The built-in [min] computes the mathematical minimum. *)
Lemma py_min3_is_Qmin (a b c : Q) :
  py_min3 a b c == Qmin (Qmin a b) c.
Proof.
  unfold py_min3.
  destruct (Q.min_spec a b) as [[Hab Hm]|[Hab Hm]];
  destruct (Q.min_spec (Qmin a b) c) as [[Hc Hn]|[Hc Hn]];
  rewrite Hn; rewrite Hm in Hc;
  destruct (Qltb_cases b a) as [[-> Hba]|[-> Hba]];
  match goal with
  | |- context [Py.ltb c ?m] =>
      destruct (Qltb_cases c m) as [[-> Hcm]|[-> Hcm]]
  end; try rewrite Hm; lra.
Qed.

Lemma bottleneck_is_least (cfg : Config) (i : YieldInput) :
  bottleneck cfg i == least_limit cfg i.
Proof. apply py_min3_is_Qmin. Qed.

(** ** Tab 1: the yield engine *)

(** C1.  For every input (well-formed or not) the predicted mass is at most
    the least of the light, space and root ceilings times grower skill,
    training multiplier and medium efficiency, and at most three grams per
    watt of true draw. *)
Theorem predicted_yield_bounded (cfg : Config) (i : YieldInput) :
  predicted_yield_g cfg i
    <= least_limit cfg i * grower_skill cfg * train_mult i * med_eff i
  /\ predicted_yield_g cfg i <= true_watts i * 3.0.
Proof.
  rewrite <- bottleneck_is_least.
  unfold predicted_yield_g, max_physics.
  match goal with
  | |- context [Py.ltb ?cap ?x] => destruct (Qltb_cases cap x) as [[-> Hlt]|[-> Hle]]
  end; py_unfold; split; lra.
Qed.

(** C2.  The default 4x4 tent (600 W high-end LED, no CO2, soil, four
    photoperiod plants in 5-gallon pots, no training, skill 1.0, 2.2 g/W,
    65 g/sqft): ceilings 1320, 1040 and 820 grams, 205 grams per plant,
    bottleneck 820 grams bound by the roots, prediction 820 grams, below the
    1800 gram cap, which is not applied. *)
Theorem default_tent_yield :
  let cfg := scenario_cfg (num := Q) in
  let i := scenario_input (num := Q) in
  limit_light_g cfg i == 1320
  /\ limit_space_g cfg i == 1040
  /\ per_plant_max i == 205
  /\ per_plant_max i == Qmin 800 (30 + 5 * 35 * 1.0)
  /\ limit_root_g i == 820
  /\ bottleneck cfg i == 820
  /\ limiting_factor cfg i = Some ROOTS
  /\ max_physics i == 1800
  /\ Py.ltb (max_physics i)
       (bottleneck cfg i * grower_skill cfg * train_mult i * med_eff i) = false
  /\ predicted_yield_g cfg i == 820.
Proof.
  cbv zeta. repeat split; vm_compute; reflexivity.
Qed.

(** The same scenario as the interpreter computes it, in binary64: every
    intermediate value is the double of the same integer. *)
Remark binary64_default_tent :
  let cfg := scenario_cfg (num := float) in
  let i := scenario_input (num := float) in
  limit_light_g cfg i = lit 1320
  /\ limit_space_g cfg i = lit 1040
  /\ limit_root_g i = lit 820
  /\ bottleneck cfg i = lit 820
  /\ limiting_factor cfg i = Some ROOTS
  /\ predicted_yield_g cfg i = lit 820.
Proof.
  cbv zeta. repeat split; vm_compute; reflexivity.
Qed.

(** In exact arithmetic the bottleneck is the least of the three ceilings; a
    warning is always shown, and the ceiling it names equals that minimum.
    Among equal ceilings light is named before space and space before
    roots. *)
Lemma tie_rule_exact (cfg : Config) (i : YieldInput) :
  bottleneck cfg i == least_limit cfg i
  /\ (exists f, limiting_factor cfg i = Some f
                /\ limit_of cfg i f == least_limit cfg i)
  /\ (limiting_factor cfg i = Some LIGHT
      <-> limit_light_g cfg i == least_limit cfg i)
  /\ (limiting_factor cfg i = Some SPACE
      <-> limit_space_g cfg i == least_limit cfg i
          /\ ~ limit_light_g cfg i == least_limit cfg i)
  /\ (limiting_factor cfg i = Some ROOTS
      <-> limit_root_g i == least_limit cfg i
          /\ ~ limit_light_g cfg i == least_limit cfg i
          /\ ~ limit_space_g cfg i == least_limit cfg i).
Proof.
  pose proof (bottleneck_is_least cfg i) as Hb.
  assert (Hone : limit_light_g cfg i == least_limit cfg i
                 \/ limit_space_g cfg i == least_limit cfg i
                 \/ limit_root_g i == least_limit cfg i).
  { unfold least_limit.
    destruct (Q.min_spec (limit_light_g cfg i) (limit_space_g cfg i))
      as [[_ Hm]|[_ Hm]];
    destruct (Q.min_spec (Qmin (limit_light_g cfg i) (limit_space_g cfg i))
                         (limit_root_g i)) as [[_ Hn]|[_ Hn]];
    rewrite Hn; try rewrite Hm; auto using Qeq_refl. }
  split; [exact Hb |].
  unfold limiting_factor.
  destruct (Qeqb_cases (bottleneck cfg i) (limit_light_g cfg i)) as [[-> Hl]|[-> Hl]];
  [| destruct (Qeqb_cases (bottleneck cfg i) (limit_space_g cfg i)) as [[-> Hs]|[-> Hs]];
     [| destruct (Qeqb_cases (bottleneck cfg i) (limit_root_g i)) as [[-> Hr]|[-> Hr]]]];
  rewrite Hb in *.
  - split; [exists LIGHT; split; [reflexivity | symmetry; exact Hl] |].
    repeat split; try discriminate; try (symmetry; exact Hl);
      intros; try tauto.
    + destruct H as [_ Hn]. exfalso. apply Hn. symmetry. exact Hl.
    + destruct H as [_ [Hn _]]. exfalso. apply Hn. symmetry. exact Hl.
  - assert (Hl' : ~ limit_light_g cfg i == least_limit cfg i)
      by (intro Hx; apply Hl; symmetry; exact Hx).
    split; [exists SPACE; split; [reflexivity | symmetry; exact Hs] |].
    repeat split; try discriminate; try (symmetry; exact Hs);
      intros; try tauto.
    destruct H as [_ [_ Hn]]. exfalso. apply Hn. symmetry. exact Hs.
  - assert (Hl' : ~ limit_light_g cfg i == least_limit cfg i)
      by (intro Hx; apply Hl; symmetry; exact Hx).
    assert (Hs' : ~ limit_space_g cfg i == least_limit cfg i)
      by (intro Hx; apply Hs; symmetry; exact Hx).
    split; [exists ROOTS; split; [reflexivity | symmetry; exact Hr] |].
    repeat split; try discriminate; try (symmetry; exact Hr);
      intros; try tauto.
  - exfalso. destruct Hone as [Hx|[Hx|Hx]];
      [apply Hl | apply Hs | apply Hr]; symmetry; exact Hx.
Qed.

(** *** The same rule on the values the interpreter computes *)

Section TieRule.

Context {num : Type} {N : PyNum num}.
Hypothesis order : PyOrder N.

Lemma py_ltb_irrefl (x : num) : Py.ltb x x = false.
Proof.
  destruct (Py.ltb x x) eqn:E; [| reflexivity].
  pose proof (py_ltb_asym order _ _ E). congruence.
Qed.

(** If [x < y] and nothing in hand says [z < y] fails, [z < x] does. *)
Lemma py_ltb_below (x y z : num) :
  Py.ltb x y = true -> Py.ltb z y = false -> Py.ltb z x = false.
Proof.
  intros Hxy Hzy. destruct (Py.ltb z x) eqn:E; [| reflexivity].
  pose proof (py_ltb_trans order _ _ _ E Hxy). congruence.
Qed.

Variables a b c : num.

Lemma py_min3_among : py_min3 a b c = a \/ py_min3 a b c = b \/ py_min3 a b c = c.
Proof.
  unfold py_min3. destruct (Py.ltb b a);
    match goal with |- context [Py.ltb c ?m] => destruct (Py.ltb c m) end; auto.
Qed.

(** The built-in [min] returns an argument none of the others is below. *)
Lemma py_min3_smallest :
  Py.ltb a (py_min3 a b c) = false
  /\ Py.ltb b (py_min3 a b c) = false
  /\ Py.ltb c (py_min3 a b c) = false.
Proof.
  unfold py_min3. destruct (Py.ltb b a) eqn:Hba.
  - destruct (Py.ltb c b) eqn:Hcb.
    + split; [| split].
      * apply (py_ltb_below c b a Hcb). apply (py_ltb_asym order). exact Hba.
      * apply (py_ltb_asym order). exact Hcb.
      * apply py_ltb_irrefl.
    + split; [| split].
      * apply (py_ltb_asym order). exact Hba.
      * apply py_ltb_irrefl.
      * exact Hcb.
  - destruct (Py.ltb c a) eqn:Hca.
    + split; [| split].
      * apply (py_ltb_asym order). exact Hca.
      * apply (py_ltb_below c a b Hca). exact Hba.
      * apply py_ltb_irrefl.
    + split; [| split].
      * apply py_ltb_irrefl.
      * exact Hba.
      * exact Hca.
Qed.

Hypothesis number_a : is_number a.
Hypothesis number_b : is_number b.
Hypothesis number_c : is_number c.

(** [min(a, b, c) == x], for [x] one of the three, says that none of the
    three is below [x]. *)
Lemma py_min3_eqb (x : num) :
  x = a \/ x = b \/ x = c ->
  (Py.eqb (py_min3 a b c) x = true
   <-> Py.ltb a x = false /\ Py.ltb b x = false /\ Py.ltb c x = false).
Proof.
  intro Hx. destruct py_min3_smallest as (Ha & Hb & Hc). split.
  - intro Heq.
    rewrite <- !(py_eqb_ltb order _ _ _ Heq). auto.
  - intros (Hxa & Hxb & Hxc).
    assert (Hm : is_number (py_min3 a b c))
      by (destruct py_min3_among as [-> | [-> | ->]]; assumption).
    assert (Hnx : is_number x) by (destruct Hx as [-> | [-> | ->]]; assumption).
    apply (py_ltb_total order); [exact Hm | exact Hnx | |].
    + destruct py_min3_among as [-> | [-> | ->]]; assumption.
    + destruct Hx as [-> | [-> | ->]]; assumption.
Qed.

End TieRule.

(** In an arithmetic with those laws, on ceilings that are numbers, the
    warning names a smallest ceiling, light before space before roots. *)
Lemma tie_rule_computed {num : Type} (N : PyNum num) (order : PyOrder N)
  (cfg : Config) (i : YieldInput) :
  is_number (limit_light_g cfg i) -> is_number (limit_space_g cfg i) ->
  is_number (limit_root_g i) ->
  names_smallest_ceiling cfg i.
Proof.
  intros Hl Hs Hr.
  pose proof (py_min3_smallest order (limit_light_g cfg i) (limit_space_g cfg i)
                (limit_root_g i)) as Hleast.
  pose proof (py_min3_eqb order Hl Hs Hr) as Heqb.
  fold (bottleneck cfg i) in Hleast, Heqb.
  pose proof (Heqb (limit_light_g cfg i) (or_introl eq_refl)) as HL.
  pose proof (Heqb (limit_space_g cfg i) (or_intror (or_introl eq_refl))) as HS.
  pose proof (Heqb (limit_root_g i) (or_intror (or_intror eq_refl))) as HR.
  fold (none_below cfg i (limit_light_g cfg i)) in HL.
  fold (none_below cfg i (limit_space_g cfg i)) in HS.
  fold (none_below cfg i (limit_root_g i)) in HR.
  assert (Hsome : none_below cfg i (limit_light_g cfg i)
                  \/ none_below cfg i (limit_space_g cfg i)
                  \/ none_below cfg i (limit_root_g i)).
  { destruct (py_min3_among (limit_light_g cfg i) (limit_space_g cfg i)
                (limit_root_g i)) as [E | [E | E]];
      fold (bottleneck cfg i) in E; rewrite <- E; auto. }
  unfold names_smallest_ceiling, limiting_factor.
  split; [exact Hleast |].
  destruct (Py.eqb (bottleneck cfg i) (limit_light_g cfg i)) eqn:El;
  [| destruct (Py.eqb (bottleneck cfg i) (limit_space_g cfg i)) eqn:Es;
     [| destruct (Py.eqb (bottleneck cfg i) (limit_root_g i)) eqn:Er]].
  - assert (Hl' : none_below cfg i (limit_light_g cfg i)) by (apply HL; reflexivity).
    split; [exists LIGHT; cbn [ceiling]; auto |].
    split; [split; auto |].
    split; [split; [discriminate | intros [_ Hn]; contradiction] |].
    split; [discriminate |]. intros (_ & Hn & _). contradiction.
  - assert (Hl' : ~ none_below cfg i (limit_light_g cfg i))
      by (intro Hx; apply HL in Hx; discriminate).
    assert (Hs' : none_below cfg i (limit_space_g cfg i)) by (apply HS; reflexivity).
    split; [exists SPACE; cbn [ceiling]; auto |].
    split; [split; [discriminate | intro; contradiction] |].
    split; [split; auto |].
    split; [discriminate |]. intros (_ & _ & Hn). contradiction.
  - assert (Hl' : ~ none_below cfg i (limit_light_g cfg i))
      by (intro Hx; apply HL in Hx; discriminate).
    assert (Hs' : ~ none_below cfg i (limit_space_g cfg i))
      by (intro Hx; apply HS in Hx; discriminate).
    assert (Hr' : none_below cfg i (limit_root_g i)) by (apply HR; reflexivity).
    split; [exists ROOTS; cbn [ceiling]; auto |].
    split; [split; [discriminate | intro; contradiction] |].
    split; [split; [discriminate | intros [Hn _]; contradiction] |].
    split; auto.
  - exfalso. destruct Hsome as [Hx | [Hx | Hx]];
      [apply HL in Hx | apply HS in Hx | apply HR in Hx]; discriminate.
Qed.

(** Exact arithmetic obeys the laws. *)
Lemma exact_order : PyOrder QNum.
Proof.
  split.
  - intros x y Hxy. destruct (Qltb_cases x y) as [[_ H1]|[E _]]; [| congruence].
    destruct (Qltb_cases y x) as [[_ H2]|[E _]]; [lra | exact E].
  - intros x y z Hxy Hyz.
    destruct (Qltb_cases x y) as [[_ H1]|[E _]]; [| congruence].
    destruct (Qltb_cases y z) as [[_ H2]|[E _]]; [| congruence].
    destruct (Qltb_cases x z) as [[E _]|[_ H3]]; [exact E | lra].
  - intros x y z Hxy. destruct (Qeqb_cases x y) as [[_ H1]|[E _]]; [| congruence].
    destruct (Qltb_cases z x) as [[-> H2]|[-> H2]];
    destruct (Qltb_cases z y) as [[-> H3]|[-> H3]]; try reflexivity; lra.
  - intros x y _ _ Hxy Hyx.
    destruct (Qltb_cases x y) as [[E _]|[_ H1]]; [congruence |].
    destruct (Qltb_cases y x) as [[E _]|[_ H2]]; [congruence |].
    destruct (Qeqb_cases x y) as [[E _]|[_ H3]]; [exact E | exfalso; apply H3; lra].
Qed.

(** The comparison of two doubles, through their keys. *)
Lemma lex3_spec (a b : Z * Z * Z) :
  CompareSpec (lex3_eq a b) (lex3_lt a b) (lex3_lt b a) (lex3 a b).
Proof.
  destruct a as [[a1 a2] a3], b as [[b1 b2] b3]. unfold lex3, lex3_lt, lex3_eq.
  destruct (Z.compare_spec a1 b1); [| constructor; lia | constructor; lia].
  destruct (Z.compare_spec a2 b2); [| constructor; lia | constructor; lia].
  destruct (Z.compare_spec a3 b3); constructor; lia.
Qed.

Lemma SFcompare_key (x y : spec_float) :
  SFcompare x y = match sf_key x, sf_key y with
                  | Some a, Some b => Some (lex3 a b)
                  | _, _ => None
                  end.
Proof.
  destruct x as [sx|sx| |sx mx ex], y as [sy|sy| |sy my ey];
    try destruct sx; try destruct sy; try reflexivity; cbn [SFcompare sf_key lex3].
  cbn. rewrite Z.compare_opp, (Z.compare_antisym ex ey).
  destruct (ex ?= ey)%Z; reflexivity.
Qed.

Lemma float_ltb_key (x y : float) :
  PrimFloat.ltb x y
  = match float_key x, float_key y with
    | Some a, Some b => match lex3 a b with Lt => true | _ => false end
    | _, _ => false
    end.
Proof.
  rewrite ltb_spec. unfold SFltb, float_key. rewrite SFcompare_key.
  destruct (sf_key (Prim2SF x)), (sf_key (Prim2SF y)); reflexivity.
Qed.

Lemma float_eqb_key (x y : float) :
  PrimFloat.eqb x y
  = match float_key x, float_key y with
    | Some a, Some b => match lex3 a b with Eq => true | _ => false end
    | _, _ => false
    end.
Proof.
  rewrite eqb_spec. unfold SFeqb, float_key. rewrite SFcompare_key.
  destruct (sf_key (Prim2SF x)), (sf_key (Prim2SF y)); reflexivity.
Qed.

Ltac float_order :=
  unfold is_number in *; cbn [Py.ltb Py.eqb FloatNum] in *;
  rewrite ?float_ltb_key, ?float_eqb_key in *;
  repeat match goal with
         | |- context [float_key ?x] => destruct (float_key x) as [[[? ?] ?]|]
         | H : context [float_key ?x] |- _ =>
             destruct (float_key x) as [[[? ?] ?]|]
         end;
  try discriminate; try reflexivity;
  repeat match goal with
         | |- context [lex3 ?a ?b] => destruct (lex3_spec a b)
         | H : context [lex3 ?a ?b] |- _ => destruct (lex3_spec a b)
         end;
  unfold lex3_lt, lex3_eq in *;
  try discriminate; try reflexivity; try (exfalso; lia).

(** Binary64 obeys the laws, NaN included where no number is asked for. *)
Lemma binary64_order : PyOrder FloatNum.
Proof.
  split.
  - intros x y Hxy. float_order.
  - intros x y z Hxy Hyz. float_order.
  - intros x y z Hxy. float_order.
  - intros x y Hx Hy Hxy Hyx. float_order.
Qed.

(** C3.  The warning names a smallest ceiling.  In exact arithmetic the
    bottleneck is the minimum of the three ceilings, a warning is always
    shown, the ceiling it names equals the minimum, and among equal ceilings
    light is named before space and space before roots.  On the doubles the
    interpreter computes (none of them a NaN) the same holds of the computed
    values: no ceiling is below the bottleneck, a warning is shown, the
    ceiling it names equals the bottleneck, and a warning is shown exactly
    when its ceiling is a smallest one and no ceiling tested before it is. *)
Theorem limiting_factor_names_minimum :
  (forall (cfg : Config) (i : @YieldInput Q),
     bottleneck cfg i == least_limit cfg i
     /\ (exists f, limiting_factor cfg i = Some f
                   /\ limit_of cfg i f == least_limit cfg i)
     /\ (limiting_factor cfg i = Some LIGHT
         <-> limit_light_g cfg i == least_limit cfg i)
     /\ (limiting_factor cfg i = Some SPACE
         <-> limit_space_g cfg i == least_limit cfg i
             /\ ~ limit_light_g cfg i == least_limit cfg i)
     /\ (limiting_factor cfg i = Some ROOTS
         <-> limit_root_g i == least_limit cfg i
             /\ ~ limit_light_g cfg i == least_limit cfg i
             /\ ~ limit_space_g cfg i == least_limit cfg i))
  /\ (forall (cfg : Config) (i : @YieldInput float),
        is_number (limit_light_g cfg i) -> is_number (limit_space_g cfg i) ->
        is_number (limit_root_g i) ->
        names_smallest_ceiling cfg i).
Proof.
  split.
  - exact tie_rule_exact.
  - intros cfg i. apply (tie_rule_computed binary64_order).
Qed.

(** The default tent and the narrow tent as the interpreter runs them. *)
Lemma limiting_factor_names_minimum_witness :
  names_smallest_ceiling scenario_cfg (scenario_input (num := float))
  /\ names_smallest_ceiling scenario_cfg (narrow_tent (num := float)).
Proof.
  destruct limiting_factor_names_minimum as [_ Hcomputed].
  split; apply Hcomputed; vm_compute; reflexivity.
Defined.

(** Where rounding decides: in the narrow tent the light and space ceilings
    are both 1430 grams in exact arithmetic, and light is named; the
    interpreter computes 650 x 2.2 one step above 1430, so space is the
    smaller ceiling there, and space is named. *)
Remark binary64_rounding_breaks_a_tie :
  limit_light_g scenario_cfg (narrow_tent (num := Q))
  == limit_space_g scenario_cfg (narrow_tent (num := Q))
  /\ limiting_factor scenario_cfg (narrow_tent (num := Q)) = Some LIGHT
  /\ Py.ltb (limit_space_g scenario_cfg (narrow_tent (num := float)))
            (limit_light_g scenario_cfg (narrow_tent (num := float))) = true
  /\ limiting_factor scenario_cfg (narrow_tent (num := float)) = Some SPACE.
Proof.
  repeat split; vm_compute; reflexivity.
Qed.

(** ** Tab 2: the energy engine *)

Lemma Qsum_ext {A} (f g : A -> Q) (xs : list A) :
  (forall x, f x == g x) -> Qsum f xs == Qsum g xs.
Proof.
  intro Hfg. induction xs as [|x xs IH]; cbn [Qsum fold_right]; [reflexivity |].
  fold (Qsum f xs). fold (Qsum g xs). rewrite IH, Hfg. reflexivity.
Qed.

Lemma kwh_is_phase_energy (cycle : Cycle) (row : Device) (p : Phase) :
  kwh cycle row p == phase_energy cycle row p.
Proof.
  unfold kwh, phase_energy, kwh_veg, kwh_flow, kwh_dry.
  destruct p, (is_light row); py_unfold; cbn [active_hours duty phase_days];
    field.
Qed.

(** The loop adds every row's three phases to what it already holds. *)
Lemma fold_bill_row (cfg : Config) (cycle : Cycle) (rows : list Device) (b : Bill) :
  let b' := fold_left (bill_row cfg cycle) rows b in
  total_kwh b' ==
    total_kwh b + Qsum (fun r => kwh cycle r VegPhase + kwh cycle r FlowerPhase
                                 + kwh cycle r DryPhase) rows
  /\ Veg (phase_costs b') ==
       Veg (phase_costs b) + Qsum (fun r => kwh cycle r VegPhase * kwh_cost cfg) rows
  /\ Flower (phase_costs b') ==
       Flower (phase_costs b)
       + Qsum (fun r => kwh cycle r FlowerPhase * kwh_cost cfg) rows
  /\ Dry (phase_costs b') ==
       Dry (phase_costs b) + Qsum (fun r => kwh cycle r DryPhase * kwh_cost cfg) rows.
Proof.
  revert b. induction rows as [|r rows IH]; intro b; cbn [fold_left Qsum fold_right].
  - repeat split; ring.
  - destruct (IH (bill_row cfg cycle b r)) as (Ht & Hv & Hf & Hd).
    cbv zeta in *. rewrite Ht, Hv, Hf, Hd.
    unfold bill_row, Qsum; cbn [total_kwh phase_costs Veg Flower Dry kwh].
    py_unfold. repeat split; ring.
Qed.

(** C4.  Every device's energy in every phase is watts x active hours x duty
    cycle x days / 1000, with 18, 12 and 0 active hours for a light and 24
    for any other device, and the bill of a device list is the sum of these.
    A single light of 600 W at duty 1.0 over 35 days of veg and 63 days of
    flower at 0.14 per kWh uses 378 kWh in veg and 453.6 kWh in flower and
    costs 116.424 in total. *)
Theorem energy_per_phase (cfg : Config) (cycle : Cycle) (row : Device) :
  (forall p, kwh cycle row p == phase_energy cycle row p)
  /\ (forall rows,
        total_kwh (bill cfg cycle rows) ==
          Qsum (fun r => Qsum (phase_energy cycle r)
                              [VegPhase; FlowerPhase; DryPhase]) rows)
  /\ (is_light row = true -> watts row == 600 ->
      veg_duty row == 1.0 -> flower_duty row == 1.0 ->
      days_veg cycle == 35 -> days_flower cycle == 63 ->
      kwh_cost cfg == 0.14 ->
      kwh_veg cycle row == 378
      /\ kwh_flow cycle row == 453.6
      /\ kwh_dry cycle row == 0
      /\ total_cost cfg cycle [row] == 116.424).
Proof.
  split; [intro p; apply kwh_is_phase_energy |].
  split.
  - intro rows. unfold bill.
    destruct (fold_bill_row cfg cycle rows empty_bill) as (Ht & _).
    cbv zeta in Ht. rewrite Ht. cbn [empty_bill total_kwh]. py_unfold.
    rewrite Qplus_0_l. apply Qsum_ext. intro r.
    rewrite !kwh_is_phase_energy. cbn [Qsum fold_right]. ring.
  - intros Hlight Hw Hv Hf Hdv Hdf Hc.
    assert (Hkv : kwh_veg cycle row == 378).
    { unfold kwh_veg. rewrite Hlight. py_unfold. rewrite Hw, Hv, Hdv. reflexivity. }
    assert (Hkf : kwh_flow cycle row == 453.6).
    { unfold kwh_flow. rewrite Hlight. py_unfold. rewrite Hw, Hf, Hdf. reflexivity. }
    assert (Hkd : kwh_dry cycle row == 0).
    { unfold kwh_dry. rewrite Hlight. reflexivity. }
    repeat split; trivial.
    unfold total_cost, bill. cbn [fold_left bill_row empty_bill total_kwh].
    py_unfold. rewrite Hkv, Hkf, Hkd, Hc. reflexivity.
Qed.

Lemma energy_per_phase_witness :
  kwh_veg scenario_cycle main_light == 378
  /\ kwh_flow scenario_cycle main_light == 453.6
  /\ kwh_dry scenario_cycle main_light == 0
  /\ total_cost scenario_cfg scenario_cycle [main_light (num := Q)] == 116.424.
Proof.
  destruct (energy_per_phase scenario_cfg scenario_cycle (main_light (num := Q)))
    as (_ & _ & Hscenario).
  apply Hscenario; vm_compute; reflexivity.
Defined.

(** The same bill in binary64: the two phase energies are the doubles of
    378 and 453.6; the total cost is a double within 10^-12 of 116.424, one
    step above the double of 116.424. *)
Remark binary64_energy_bill :
  let row := main_light (num := float) in
  kwh_veg scenario_cycle row = lit 378
  /\ kwh_flow scenario_cycle row = lit 453.6
  /\ (exists q, float_to_Q (total_cost scenario_cfg scenario_cycle [row]) = Some q
                /\ Qabs (q - 116.424) <= 1 # 1000000000000)
  /\ total_cost scenario_cfg scenario_cycle [row] <> lit 116.424.
Proof.
  cbv zeta. split; [vm_compute; reflexivity |].
  split; [vm_compute; reflexivity |].
  split.
  - eexists. split; [vm_compute; reflexivity |]. vm_compute. discriminate.
  - intro Heq.
    assert (Hb : Py.eqb (total_cost scenario_cfg scenario_cycle
                           [main_light (num := float)]) (lit 116.424) = true)
      by (rewrite Heq; vm_compute; reflexivity).
    vm_compute in Hb. discriminate.
Qed.

(** *** Which devices are lights *)

Lemma prefix_iff (n h : string) :
  String.prefix n h = true <-> exists post, h = (n ++ post)%string.
Proof.
  revert h. induction n as [|a n IH]; intro h.
  - split; [intros _; exists h; reflexivity | intros _; destruct h; reflexivity].
  - destruct h as [|b h]; cbn [String.prefix].
    + split; [discriminate | intros [post Hp]; discriminate].
    + destruct (ascii_dec a b) as [->|Hab].
      * rewrite IH. split; intros [post Hp]; exists post.
        -- cbn. now rewrite <- Hp.
        -- cbn in Hp. now injection Hp.
      * split; [discriminate |]. intros [post Hp]. cbn in Hp.
        injection Hp as Hba _. congruence.
Qed.

Lemma str_in_iff (n h : string) : str_in n h = true <-> occurs_in n h.
Proof.
  unfold occurs_in. induction h as [|c h IH]; cbn [str_in].
  - destruct (String.prefix n "") eqn:E.
    + split; [intros _ | reflexivity].
      apply prefix_iff in E. destruct E as [post Hp].
      exists "", post. exact Hp.
    + split; [discriminate |]. intros (pre & post & Hp).
      destruct pre; [| discriminate]. cbn in Hp.
      assert (String.prefix n "" = true) by (apply prefix_iff; eauto).
      congruence.
  - destruct (String.prefix n (String c h)) eqn:E.
    + split; [intros _ | reflexivity].
      apply prefix_iff in E. destruct E as [post Hp].
      exists "", post. exact Hp.
    + rewrite IH. split; intros (pre & post & Hp).
      * exists (String c pre), post. cbn. now rewrite <- Hp.
      * destruct pre as [|a pre]; cbn in Hp.
        -- assert (String.prefix n (String c h) = true)
             by (apply prefix_iff; eauto).
           congruence.
        -- injection Hp as _ Hp. eauto.
Qed.

(** Of the seven default rows only the first is billed as a light. *)
Remark default_lights :
  map is_light (default_devices (600 : Q))
  = [true; false; false; false; false; false; false].
Proof. reflexivity. Qed.

(** C10.  A row is billed as a light exactly when its name contains the
    substring "Light", capital L included.  Any other row, "main light"
    for one, is billed 24 hours a day in veg, flower and dry; its dry phase
    costs energy as soon as its dry duty cycle is positive (for a device
    that draws power, over a dry phase that lasts). *)
Theorem light_is_matched_by_name (cycle : Cycle) (row : Device) :
  (is_light row = true <-> occurs_in "Light" (name row))
  /\ (is_light row = false ->
      kwh_veg cycle row == watts row * 24 * veg_duty row * days_veg cycle / 1000
      /\ kwh_flow cycle row
         == watts row * 24 * flower_duty row * days_flower cycle / 1000
      /\ kwh_dry cycle row == watts row * 24 * dry_duty row * days_dry cycle / 1000
      /\ (0 < dry_duty row -> 0 < watts row -> 0 < days_dry cycle ->
          0 < kwh_dry cycle row)).
Proof.
  split; [apply str_in_iff |].
  intro Hno. unfold kwh_veg, kwh_flow, kwh_dry. rewrite Hno. py_unfold.
  repeat split; try reflexivity.
  intros Hd Hw Hdays.
  assert (H24 : 0 < watts row * 24) by lra.
  assert (H1 : 0 < watts row * 24 * dry_duty row)
    by (apply Qmult_lt_0_compat; assumption).
  assert (H2 : 0 < watts row * 24 * dry_duty row * days_dry cycle)
    by (apply Qmult_lt_0_compat; assumption).
  unfold Qdiv. apply Qmult_lt_0_compat; [assumption | reflexivity].
Qed.

Lemma light_is_matched_by_name_witness :
  ~ occurs_in "Light" (name lower_case_light)
  /\ kwh_veg scenario_cycle lower_case_light == 600 * 24 * 1.0 * 35 / 1000
  /\ kwh_flow scenario_cycle lower_case_light == 600 * 24 * 1.0 * 63 / 1000
  /\ kwh_dry scenario_cycle lower_case_light == 600 * 24 * 0.5 * 14 / 1000
  /\ 0 < kwh_dry scenario_cycle lower_case_light.
Proof.
  destruct (light_is_matched_by_name scenario_cycle lower_case_light)
    as (Hname & Hday).
  split.
  - intro Hocc. apply Hname in Hocc. vm_compute in Hocc. discriminate.
  - destruct Hday as (Hv & Hf & Hd & Hpos); [reflexivity |].
    split; [exact Hv |]. split; [exact Hf |]. split; [exact Hd |].
    apply Hpos; reflexivity.
Defined.

(** ** Ratios and their denominators *)

Lemma py_div_nonzero (x y : Q) : ~ y == 0 -> py_div x y = Ok (x / y).
Proof.
  intro Hy. unfold py_div.
  destruct (Qeqb_cases y (lit 0)) as [[-> Hz]|[-> Hz]]; [| reflexivity].
  py_unfold. contradiction.
Qed.

Lemma py_div_zero (x y : Q) : y == 0 -> py_div x y = Raise ZeroDivisionError.
Proof.
  intro Hy. unfold py_div.
  destruct (Qeqb_cases y (lit 0)) as [[-> Hz]|[-> Hz]]; [reflexivity |].
  py_unfold. contradiction.
Qed.

Lemma widget_range_positive (i : YieldInput) :
  in_widget_range i -> 0 < sq_ft i /\ 0 < true_watts i.
Proof.
  intros (Hl & Hw & Ht & _). split; [| lra].
  unfold sq_ft. py_unfold. apply Qmult_lt_0_compat; lra.
Qed.

Lemma cost_per_gram_total (total predicted : Q) :
  exists v, cost_per_gram total predicted = Ok v
            /\ (0 < predicted -> v == total / predicted)
            /\ (~ 0 < predicted -> v == 0).
Proof.
  unfold cost_per_gram.
  destruct (Qltb_cases (lit 0) predicted) as [[-> Hp]|[-> Hp]]; py_unfold.
  - exists (total / predicted). rewrite py_div_nonzero by lra.
    split; [reflexivity |].
    split; [intros _; reflexivity | intro Hn; contradiction].
  - exists 0. split; [reflexivity |].
    split; [intro Hpos; lra | intros _; reflexivity].
Qed.

Lemma metrics_nonzero (cfg : Config) (i : YieldInput) :
  ~ true_watts i == 0 -> ~ sq_ft i == 0 ->
  metrics cfg i =
    Ok {| m1_oz := predicted_yield_g cfg i / 28.35;
          m2_gpw := predicted_yield_g cfg i / true_watts i;
          m3_density := predicted_yield_g cfg i / sq_ft i;
          m4_market_value := predicted_yield_g cfg i / 28.35 * 150 |}.
Proof.
  intros Hw Ha. unfold metrics.
  rewrite (py_div_nonzero _ Hw), (py_div_nonzero _ Ha). reflexivity.
Qed.

(** C5, amended.  Cost per gram is guarded: it is total / predicted when the
    prediction is positive and 0 otherwise, and never raises.  Grams per watt
    and grams per square foot are plain divisions: they are defined whenever
    watts and area are non-zero, which the input widgets guarantee, and
    raise ZeroDivisionError on a zero denominator. *)
Theorem ratios_and_zero_denominators
  (cfg : Config) (i : YieldInput) (total predicted : Q) :
  (exists v, cost_per_gram total predicted = Ok v
             /\ (0 < predicted -> v == total / predicted)
             /\ (~ 0 < predicted -> v == 0))
  /\ (~ true_watts i == 0 -> ~ sq_ft i == 0 ->
      exists m, metrics cfg i = Ok m
                /\ m2_gpw m == predicted_yield_g cfg i / true_watts i
                /\ m3_density m == predicted_yield_g cfg i / sq_ft i)
  /\ (in_widget_range i -> ~ true_watts i == 0 /\ ~ sq_ft i == 0)
  /\ (true_watts i == 0 \/ sq_ft i == 0 ->
      metrics cfg i = Raise ZeroDivisionError).
Proof.
  split; [apply cost_per_gram_total |].
  split; [| split].
  - intros Hw Ha. eexists. split; [apply metrics_nonzero; assumption |].
    cbn [m2_gpw m3_density]. split; reflexivity.
  - intro Hr. destruct (widget_range_positive Hr) as [Ha Hw]. split; lra.
  - intros Hz. unfold metrics.
    destruct (Qeq_dec (true_watts i) 0) as [Hw|Hw].
    + rewrite (py_div_zero _ Hw). reflexivity.
    + destruct Hz as [Hz|Hz]; [contradiction |].
      rewrite (py_div_nonzero _ Hw), (py_div_zero _ Hz). reflexivity.
Qed.

Lemma ratios_and_zero_denominators_witness :
  (exists m, metrics scenario_cfg (scenario_input (num := Q)) = Ok m
             /\ m2_gpw m == 820 / 600 /\ m3_density m == 820 / 16)
  /\ metrics scenario_cfg (with_watts 0 (scenario_input (num := Q)))
     = Raise ZeroDivisionError.
Proof.
  split.
  - destruct (ratios_and_zero_denominators scenario_cfg scenario_input 0 0)
      as (_ & Hm & _).
    destruct Hm as (m & Hm & Hg & Hd);
      [vm_compute; discriminate | vm_compute; discriminate |].
    exists m. split; [exact Hm |]. split.
    + rewrite Hg. vm_compute. reflexivity.
    + rewrite Hd. vm_compute. reflexivity.
  - destruct (ratios_and_zero_denominators scenario_cfg
                (with_watts 0 scenario_input) 0 0) as (_ & _ & _ & Hz).
    apply Hz. left. reflexivity.
Defined.

(** The claim as first stated fails: with zero watts the grams-per-watt card
    divides by zero and raises; no sentinel is returned. *)
Lemma gpw_raises_on_zero_watts :
  let i := with_watts 0 (scenario_input (num := Q)) in
  true_watts i == 0
  /\ metrics scenario_cfg i = Raise ZeroDivisionError
  /\ ~ returns (metrics scenario_cfg i).
Proof.
  cbv zeta. split; [reflexivity |]. split; [vm_compute; reflexivity |].
  intros [m Hm]. vm_compute in Hm. discriminate.
Qed.

(** ** Validation *)

Lemma predicted_le_max_physics (cfg : Config) (i : YieldInput) :
  predicted_yield_g cfg i <= max_physics i.
Proof.
  unfold predicted_yield_g.
  match goal with
  | |- context [Py.ltb ?cap ?x] => destruct (Qltb_cases cap x) as [[-> Hlt]|[-> Hle]]
  end; lra.
Qed.

(** C9, amended.  The yield engine does not check its inputs.  With
    negative watts it returns a negative prediction and the tab renders (the
    area not being zero), and so it does with a negative area.  No input
    makes the tab fail with a validation error: its only exception is the
    ZeroDivisionError of the metric cards, on watts or area that are exactly
    zero.  Positive area and watts come only from the input widgets' bounds,
    under which the tab cannot fail. *)
Theorem engines_do_not_validate (cfg : Config) (i : YieldInput) :
  (forall e, yield_tab cfg i = Raise e ->
             e = ZeroDivisionError /\ (true_watts i == 0 \/ sq_ft i == 0))
  /\ (true_watts i < 0 ->
      predicted_yield_g cfg i < 0
      /\ (~ sq_ft i == 0 -> returns (yield_tab cfg i)))
  /\ (sq_ft i < 0 -> ~ true_watts i == 0 -> returns (yield_tab cfg i))
  /\ (in_widget_range i ->
      0 < sq_ft i /\ 0 < true_watts i /\ returns (yield_tab cfg i)).
Proof.
  assert (Htab : ~ true_watts i == 0 -> ~ sq_ft i == 0 -> returns (yield_tab cfg i)).
  { intros Hw Ha. unfold yield_tab, yield_engine. cbn [Py.bind].
    rewrite (metrics_nonzero cfg Hw Ha). cbn [Py.bind]. eexists. reflexivity. }
  split; [| split; [| split]].
  - intros e He.
    destruct (Qeq_dec (true_watts i) 0) as [Hw|Hw].
    + split; [| left; exact Hw].
      unfold yield_tab, yield_engine, metrics in He. cbn [Py.bind] in He.
      rewrite (py_div_zero _ Hw) in He. cbn [Py.bind] in He. congruence.
    + destruct (Qeq_dec (sq_ft i) 0) as [Ha|Ha].
      * split; [| right; exact Ha].
        unfold yield_tab, yield_engine, metrics in He. cbn [Py.bind] in He.
        rewrite (py_div_nonzero _ Hw), (py_div_zero _ Ha) in He.
        cbn [Py.bind] in He. congruence.
      * destruct (Htab Hw Ha) as [v Hv]. congruence.
  - intro Hneg. split.
    + pose proof (predicted_le_max_physics cfg i) as Hcap.
      unfold max_physics in Hcap. py_unfold. lra.
    + intro Ha. apply Htab; [lra | exact Ha].
  - intros Ha Hw. apply Htab; [exact Hw | lra].
  - intro Hr. destruct (widget_range_positive Hr) as [Ha Hw].
    split; [exact Ha |]. split; [exact Hw |]. apply Htab; lra.
Qed.

Lemma engines_do_not_validate_witness :
  (predicted_yield_g scenario_cfg (with_watts (-100) (scenario_input (num := Q))) < 0
   /\ returns (yield_tab scenario_cfg (with_watts (-100) (scenario_input (num := Q)))))
  /\ returns (yield_tab scenario_cfg (scenario_input (num := Q))).
Proof.
  split.
  - destruct (engines_do_not_validate scenario_cfg
                (with_watts (-100) (scenario_input (num := Q))))
      as (_ & Hneg & _).
    destruct Hneg as [Hp Ht]; [reflexivity |].
    split; [exact Hp |]. apply Ht. vm_compute. discriminate.
  - destruct (engines_do_not_validate scenario_cfg (scenario_input (num := Q)))
      as (_ & _ & _ & Hr).
    apply Hr. vm_compute. intuition discriminate.
Defined.

(** The claim as first stated fails: 100 watts below zero are accepted.  In
    the default tent the engine returns -300 grams and the whole tab
    renders, metric cards and all, naming light as the bottleneck. *)
Lemma non_positive_watts_accepted :
  let negative := with_watts (-100) (scenario_input (num := Q)) in
  true_watts negative <= 0
  /\ predicted_yield_g scenario_cfg negative == -300
  /\ (exists g m, yield_tab scenario_cfg negative = Ok (g, m, Some LIGHT)
                  /\ g == -300 /\ m2_gpw m == 3)
  /\ ~ raises (yield_tab scenario_cfg negative).
Proof.
  cbv zeta. split; [vm_compute; discriminate |].
  split; [vm_compute; reflexivity |]. split.
  - eexists. eexists. split; [vm_compute; reflexivity |].
    split; vm_compute; reflexivity.
  - intros [e He]. vm_compute in He. discriminate.
Qed.

(** The interpreter agrees: in binary64 the same input gives the double of
    -300 and a rendered tab. *)
Remark binary64_negative_watts :
  let negative := with_watts (PrimFloat.opp (lit 100)) (scenario_input (num := float)) in
  predicted_yield_g scenario_cfg negative = PrimFloat.opp (lit 300)
  /\ exists m, yield_tab scenario_cfg negative
               = Ok (PrimFloat.opp (lit 300), m, Some LIGHT).
Proof.
  cbv zeta. split; [vm_compute; reflexivity |].
  eexists. vm_compute. reflexivity.
Qed.

(** ** Tab 3: the extraction engine *)

(** Taking a percentage of a non-negative mass gives no more than the mass,
    and no less than nothing. *)
Lemma percentage_of_mass (x p : Q) :
  0 <= x -> is_percentage p -> 0 <= x * (p / 100) <= x.
Proof.
  intros Hx [Hp0 Hp1].
  assert (H0 : 0 <= p / 100) by (apply Qle_shift_div_l; lra).
  assert (H1 : p / 100 <= 1) by (apply Qle_shift_div_r; lra).
  split.
  - apply Qmult_le_0_compat; assumption.
  - rewrite <- (Qmult_1_r x) at 2. rewrite (Qmult_comm x (p / 100)), (Qmult_comm x 1).
    apply Qmult_le_compat_r; assumption.
Qed.

(** C6.  With a non-negative input mass and percentages between 0 and 100,
    dry cured flower gives rosin of at most the input mass, and fresh frozen
    material gives hash of at most the input mass and rosin of at most the
    hash. *)
Theorem extraction_never_gains (input_g : Q) (params : ExtractionParams) :
  0 <= input_g -> percentages params ->
  (material_of params = DryCuredFlower ->
   hash_g (extraction input_g params) = None
   /\ rosin_g (extraction input_g params) <= input_g)
  /\ (material_of params = FreshFrozenWPFF ->
      exists h, hash_g (extraction input_g params) = Some h
                /\ rosin_g (extraction input_g params) <= h
                /\ h <= input_g).
Proof.
  intros Hx Hp.
  destruct params as [r|w p];
    cbn [extraction hash_g rosin_g percentages material_of] in *;
    (split; intro Hm; [| try discriminate]); try discriminate; py_unfold.
  - split; [reflexivity |]. apply percentage_of_mass; assumption.
  - destruct Hp as [Hw Hpr].
    pose proof (percentage_of_mass Hx Hw) as [Hh0 Hh1].
    eexists. split; [reflexivity |]. split; [| exact Hh1].
    apply percentage_of_mass; assumption.
Qed.

Lemma extraction_never_gains_witness :
  rosin_g (extraction 820 (PressReturn 20)) <= 820
  /\ exists h, hash_g (extraction 820 (WashAndPress 4.0 75)) = Some h
               /\ rosin_g (extraction 820 (WashAndPress 4.0 75)) <= h
               /\ h <= 820.
Proof.
  split.
  - destruct (@extraction_never_gains 820 (PressReturn 20)) as [Hdry _];
      [vm_compute; discriminate | vm_compute; intuition discriminate |].
    apply Hdry. reflexivity.
  - destruct (@extraction_never_gains 820 (WashAndPress 4.0 75)) as [_ Hfrozen];
      [vm_compute; discriminate | vm_compute; intuition discriminate |].
    apply Hfrozen. reflexivity.
Defined.

(** ** Tab 4: the recommender *)

(** The tier the [if]/[elif] chain picks, and the test that picked it. *)
Lemma configuration_cases (x : Q) :
  (x < 5 /\ configuration x = tier_labels Tier1)
  \/ (5 <= x < 10 /\ configuration x = tier_labels Tier2)
  \/ (10 <= x < 17 /\ configuration x = tier_labels Tier3)
  \/ (17 <= x < 26 /\ configuration x = tier_labels Tier4)
  \/ (26 <= x /\ configuration x = tier_labels Tier5).
Proof.
  unfold configuration.
  destruct (Qltb_cases x (lit 5)) as [[-> H5]|[-> H5]];
  [| destruct (Qltb_cases x (lit 10)) as [[-> H10]|[-> H10]];
     [| destruct (Qltb_cases x (lit 17)) as [[-> H17]|[-> H17]];
        [| destruct (Qltb_cases x (lit 26)) as [[-> H26]|[-> H26]]]]];
  cbn [lit QNum] in *.
  - left. split; [lra | reflexivity].
  - right; left. split; [lra | reflexivity].
  - do 2 right; left. split; [lra | reflexivity].
  - do 3 right; left. split; [lra | reflexivity].
  - do 4 right. split; [lra | reflexivity].
Qed.

Lemma target_g_scaled (u : TargetUnit) (v : Q) : target_g u v == v * grams_per u.
Proof. destruct u; reflexivity. Qed.

(** C7.  The target is converted to grams at 28.35 per ounce, 453.59 per
    pound and 1000 per kilogram; required watts are grams / 1.5 and required
    area is grams / 40.  The required area selects the tier whose band
    [0,5), [5,10), [10,17), [17,26) or [26,inf) contains it, and no other
    band contains it; each upper bound belongs to the next tier.  One pound
    is 453.59 g, needs 302.39 W and 11.34 sq ft (to two decimals), and gets
    the 4x4 tent with the 600W-720W bar LED. *)
Theorem recommender_tiers (target_unit : TargetUnit) (target_val : Q) :
  let g := target_g target_unit target_val in
  let a := req_sqft g in
  g == target_val * grams_per target_unit
  /\ req_watts g == g / 1.5
  /\ a == g / 40.0
  /\ (forall t, in_band t a -> configuration a = tier_labels t)
  /\ (forall t t', in_band t a -> in_band t' a -> t = t')
  /\ (exists t, configuration a = tier_labels t)
  /\ (0 <= target_val -> exists t, in_band t a)
  /\ (configuration 5 = tier_labels Tier2
      /\ configuration 10 = tier_labels Tier3
      /\ configuration 17 = tier_labels Tier4
      /\ configuration 26 = tier_labels Tier5)
  /\ (target_g Pounds 1 == 453.59
      /\ 302.385 <= req_watts (target_g Pounds 1) < 302.395
      /\ 11.335 <= req_sqft (target_g Pounds 1) < 11.345
      /\ in_band Tier3 (req_sqft (target_g Pounds 1))
      /\ tent_rec (req_sqft (target_g Pounds 1)) = "4x4 Tent"
      /\ light_rec (req_sqft (target_g Pounds 1)) = "600W-720W Bar LED").
Proof.
  cbv zeta.
  set (g := target_g target_unit target_val).
  set (a := req_sqft g).
  split; [apply target_g_scaled |].
  split; [reflexivity |]. split; [reflexivity |].
  split; [| split; [| split; [| split; [| split]]]].
  - intros t [Hlo Hhi].
    destruct (configuration_cases a) as [[Ha ->]|[[Ha ->]|[[Ha ->]|[[Ha ->]|[Ha ->]]]]];
      destruct t; cbn [band_from band_upto] in Hlo, Hhi; try reflexivity; lra.
  - intros t t' [Hlo Hhi] [Hlo' Hhi'].
    destruct t, t'; cbn [band_from band_upto] in *; try reflexivity; lra.
  - destruct (configuration_cases a) as [[_ Hc]|[[_ Hc]|[[_ Hc]|[[_ Hc]|[_ Hc]]]]];
      eauto.
  - intro Hv.
    assert (Ha : 0 <= a).
    { unfold a, req_sqft. py_unfold. apply Qle_shift_div_l; [reflexivity |].
      unfold g. rewrite target_g_scaled.
      rewrite Qmult_0_l. apply Qmult_le_0_compat; [exact Hv |].
      destruct target_unit; vm_compute; discriminate. }
    destruct (configuration_cases a) as [[Hx _]|[[Hx _]|[[Hx _]|[[Hx _]|[Hx _]]]]].
    + exists Tier1. split; cbn [band_from band_upto]; lra.
    + exists Tier2. split; cbn [band_from band_upto]; lra.
    + exists Tier3. split; cbn [band_from band_upto]; lra.
    + exists Tier4. split; cbn [band_from band_upto]; lra.
    + exists Tier5. split; cbn [band_from band_upto]; [lra | exact I].
  - repeat split; vm_compute; reflexivity.
  - split; [vm_compute; reflexivity |].
    split; [split; vm_compute; (discriminate || reflexivity) |].
    split; [split; vm_compute; (discriminate || reflexivity) |].
    split; [split; vm_compute; (discriminate || reflexivity) |].
    split; vm_compute; reflexivity.
Qed.

Lemma recommender_tiers_witness :
  exists t, in_band t (req_sqft (target_g Kilograms (1 : Q))).
Proof.
  destruct (recommender_tiers Kilograms 1) as (_ & _ & _ & _ & _ & _ & Hband & _).
  apply Hband. vm_compute. discriminate.
Defined.

(** One pound in binary64: the double of 453.59, and requirements that
    round to 302.39 W and 11.34 sq ft and fall in the 4x4 tier. *)
Remark binary64_one_pound :
  let g := target_g Pounds (lit 1.0 : float) in
  g = lit 453.59
  /\ Py.ltb (lit 302.385) (req_watts g) = true
  /\ Py.ltb (req_watts g) (lit 302.395) = true
  /\ Py.ltb (lit 11.335) (req_sqft g) = true
  /\ Py.ltb (req_sqft g) (lit 11.345) = true
  /\ configuration (req_sqft g) = ("4x4 Tent", "600W-720W Bar LED").
Proof.
  cbv zeta. repeat split; vm_compute; reflexivity.
Qed.

(** *** The plant count *)

Lemma math_is_unbound : resolves script_names "math" = false.
Proof. vm_compute. reflexivity. Qed.

(** Had the module been imported, the count would be the ceiling of
    grams / 112, for every target. *)
Lemma est_pots_with_math_is_ceiling (target_g : Q) :
  est_pots_with_math target_g = Ok (Qceiling (target_g / 112)).
Proof. reflexivity. Qed.

(** C8, as the script behaves.  The plant count is written as
    [math.ceil(target_g / 112)], but the script never imports [math]: in
    either arithmetic, for every target, line 312 raises NameError and the
    tab ends there without a plant count.  For one pound the intended count
    is 5. *)
Theorem est_pots_raises_NameError :
  (forall (num : Type) (N : PyNum num) (target_g : num),
     est_pots target_g = Raise (NameError "math"))
  /\ (forall (target_unit : TargetUnit) (target_val : Q),
        recommend target_unit target_val = Raise (NameError "math"))
  /\ recommend Pounds (lit 1.0 : float) = Raise (NameError "math")
  /\ est_pots_with_math (target_g Pounds (1 : Q)) = Ok 5%Z.
Proof.
  assert (Hraise : forall (num : Type) (N : PyNum num) (g : num),
             est_pots g = Raise (NameError "math")).
  { intros num N g. unfold est_pots, est_pots_in.
    rewrite math_is_unbound. reflexivity. }
  split; [exact Hraise |]. split; [| split].
  - intros u v. unfold recommend. rewrite Hraise. reflexivity.
  - unfold recommend. rewrite Hraise. reflexivity.
  - vm_compute. reflexivity.
Qed.

(** ** Further properties of the energy engine *)

Lemma Qsum_cons {A} (f : A -> Q) (x : A) (xs : list A) :
  Qsum f (x :: xs) = f x + Qsum f xs.
Proof. reflexivity. Qed.

Lemma Qsum_app {A} (f : A -> Q) (xs ys : list A) :
  Qsum f (xs ++ ys) == Qsum f xs + Qsum f ys.
Proof.
  induction xs as [|x xs IH].
  - change (Qsum f ys == 0 + Qsum f ys). ring.
  - change (Qsum f (x :: (xs ++ ys)) == Qsum f (x :: xs) + Qsum f ys).
    rewrite !Qsum_cons, IH. ring.
Qed.

Lemma Qsum_perm {A} (f : A -> Q) (xs ys : list A) :
  Permutation xs ys -> Qsum f xs == Qsum f ys.
Proof.
  induction 1 as [| x xs ys _ IH | x y xs | xs ys zs _ IH1 _ IH2].
  - reflexivity.
  - rewrite !Qsum_cons, IH. reflexivity.
  - rewrite !Qsum_cons. ring.
  - rewrite IH1. exact IH2.
Qed.

Lemma Qsum_nonneg {A} (f : A -> Q) (xs : list A) :
  Forall (fun x => 0 <= f x) xs -> 0 <= Qsum f xs.
Proof.
  induction 1 as [| x xs Hx _ IH].
  - apply Qle_refl.
  - rewrite Qsum_cons. lra.
Qed.

(** The bill of a table as four sums over its rows. *)
Lemma bill_sums (cfg : Config) (cycle : Cycle) (rows : list Device) :
  total_kwh (bill cfg cycle rows)
    == Qsum (fun r => kwh cycle r VegPhase + kwh cycle r FlowerPhase
                      + kwh cycle r DryPhase) rows
  /\ Veg (phase_costs (bill cfg cycle rows))
     == Qsum (fun r => kwh cycle r VegPhase * kwh_cost cfg) rows
  /\ Flower (phase_costs (bill cfg cycle rows))
     == Qsum (fun r => kwh cycle r FlowerPhase * kwh_cost cfg) rows
  /\ Dry (phase_costs (bill cfg cycle rows))
     == Qsum (fun r => kwh cycle r DryPhase * kwh_cost cfg) rows.
Proof.
  unfold bill.
  destruct (fold_bill_row cfg cycle rows empty_bill) as (Ht & Hv & Hf & Hd).
  cbv zeta in *. rewrite Ht, Hv, Hf, Hd.
  cbn [empty_bill total_kwh phase_costs Veg Flower Dry]. py_unfold.
  repeat split; ring.
Qed.

(** One turn of the loop keeps the three phase costs in step with the
    energy counted so far. *)
Lemma bill_row_keeps_balance (cfg : Config) (cycle : Cycle) (b : Bill) (row : Device) :
  Veg (phase_costs b) + Flower (phase_costs b) + Dry (phase_costs b)
    == total_kwh b * kwh_cost cfg ->
  let b' := bill_row cfg cycle b row in
  Veg (phase_costs b') + Flower (phase_costs b') + Dry (phase_costs b')
    == total_kwh b' * kwh_cost cfg.
Proof.
  intro Hb. cbv zeta. unfold bill_row.
  cbn [total_kwh phase_costs Veg Flower Dry]. py_unfold.
  setoid_replace
    (Veg (phase_costs b) + kwh_veg cycle row * kwh_cost cfg
     + (Flower (phase_costs b) + kwh_flow cycle row * kwh_cost cfg)
     + (Dry (phase_costs b) + kwh_dry cycle row * kwh_cost cfg))
    with (Veg (phase_costs b) + Flower (phase_costs b) + Dry (phase_costs b)
          + (kwh_veg cycle row + kwh_flow cycle row + kwh_dry cycle row)
            * kwh_cost cfg) by ring.
  rewrite Hb. ring.
Qed.

(** X1.  The three bars of the phase chart add up to the total cycle cost, for
    every equipment table. *)
Theorem phase_costs_add_up (cfg : Config) (cycle : Cycle) (rows : list Device) :
  Veg (phase_costs (bill cfg cycle rows))
  + Flower (phase_costs (bill cfg cycle rows))
  + Dry (phase_costs (bill cfg cycle rows))
  == total_cost cfg cycle rows.
Proof.
  unfold total_cost, bill.
  assert (Hinv : forall b,
             Veg (phase_costs b) + Flower (phase_costs b) + Dry (phase_costs b)
               == total_kwh b * kwh_cost cfg ->
             let b' := fold_left (bill_row cfg cycle) rows b in
             Veg (phase_costs b') + Flower (phase_costs b') + Dry (phase_costs b')
               == total_kwh b' * kwh_cost cfg).
  { induction rows as [|r rows IH]; intros b Hb; cbn [fold_left].
    - exact Hb.
    - apply IH. apply bill_row_keeps_balance. exact Hb. }
  apply Hinv. cbn [empty_bill total_kwh phase_costs Veg Flower Dry]. py_unfold. ring.
Qed.

(** X2.  In exact arithmetic an empty table costs nothing, and the bill of
    two tables put end to end is the sum of their bills, phase by phase. *)
Theorem bill_of_appended_tables (cfg : Config) (cycle : Cycle) (xs ys : list Device) :
  total_cost cfg cycle [] == 0
  /\ total_cost cfg cycle (xs ++ ys)
     == total_cost cfg cycle xs + total_cost cfg cycle ys
  /\ Veg (phase_costs (bill cfg cycle (xs ++ ys)))
     == Veg (phase_costs (bill cfg cycle xs)) + Veg (phase_costs (bill cfg cycle ys))
  /\ Flower (phase_costs (bill cfg cycle (xs ++ ys)))
     == Flower (phase_costs (bill cfg cycle xs))
        + Flower (phase_costs (bill cfg cycle ys))
  /\ Dry (phase_costs (bill cfg cycle (xs ++ ys)))
     == Dry (phase_costs (bill cfg cycle xs)) + Dry (phase_costs (bill cfg cycle ys)).
Proof.
  destruct (bill_sums cfg cycle (xs ++ ys)) as (Ht & Hv & Hf & Hd).
  destruct (bill_sums cfg cycle xs) as (Htx & Hvx & Hfx & Hdx).
  destruct (bill_sums cfg cycle ys) as (Hty & Hvy & Hfy & Hdy).
  split.
  - unfold total_cost, bill. cbn [fold_left empty_bill total_kwh]. py_unfold. ring.
  - unfold total_cost. py_unfold.
    rewrite Ht, Hv, Hf, Hd, Htx, Hvx, Hfx, Hdx, Hty, Hvy, Hfy, Hdy, !Qsum_app.
    repeat split; ring.
Qed.

(** X3.  In exact arithmetic the order of the rows does not matter to the
    bill. *)
Theorem bill_ignores_row_order (cfg : Config) (cycle : Cycle) (xs ys : list Device) :
  Permutation xs ys ->
  total_cost cfg cycle xs == total_cost cfg cycle ys
  /\ Veg (phase_costs (bill cfg cycle xs)) == Veg (phase_costs (bill cfg cycle ys))
  /\ Flower (phase_costs (bill cfg cycle xs))
     == Flower (phase_costs (bill cfg cycle ys))
  /\ Dry (phase_costs (bill cfg cycle xs)) == Dry (phase_costs (bill cfg cycle ys)).
Proof.
  intro Hperm.
  destruct (bill_sums cfg cycle xs) as (Htx & Hvx & Hfx & Hdx).
  destruct (bill_sums cfg cycle ys) as (Hty & Hvy & Hfy & Hdy).
  unfold total_cost. py_unfold.
  rewrite Htx, Hvx, Hfx, Hdx, Hty, Hvy, Hfy, Hdy.
  rewrite !(Qsum_perm _ Hperm). repeat split; reflexivity.
Qed.

Lemma bill_ignores_row_order_witness :
  total_cost scenario_cfg scenario_cycle [lower_case_light; main_light]
  == total_cost scenario_cfg scenario_cycle [main_light; lower_case_light].
Proof.
  destruct (bill_ignores_row_order scenario_cfg scenario_cycle
              (xs := [lower_case_light; main_light])
              (ys := [main_light; lower_case_light])) as [Htotal _].
  - apply perm_swap.
  - exact Htotal.
Defined.

(** Division by a literal, as the multiplication [lra] and [nra] know. *)
Ltac literal_division :=
  unfold Qdiv in *;
  repeat match goal with
         | |- context [/ ?c] =>
             let v := eval vm_compute in (/ c) in progress change (/ c) with v
         | H : context [/ ?c] |- _ =>
             let v := eval vm_compute in (/ c) in
             progress change (/ c) with v in H
         end.

Lemma kwh_nonneg (cycle : Cycle) (row : Device) (p : Phase) :
  sensible_row row -> sensible_cycle cycle -> 0 <= kwh cycle row p.
Proof.
  intros (Hw & Hv & Hf & Hd) (Hdv & Hdf & Hdd).
  rewrite kwh_is_phase_energy. unfold phase_energy.
  destruct p, (is_light row); cbn [active_hours duty phase_days];
    literal_division;
    match goal with
    | |- 0 <= watts row * _ * ?d * ?n * _ =>
        assert (0 <= watts row * d) by nra;
        assert (0 <= watts row * d * n) by nra; nra
    end.
Qed.

(** X4.  A phase in which a row's duty cycle is 0 costs nothing for that row, and
    a row that draws no power or never runs leaves the bill of the table as
    it was. *)
Theorem idle_row_costs_nothing
  (cfg : Config) (cycle : Cycle) (row : Device) (rows : list Device) :
  (forall p, duty row p == 0 -> kwh cycle row p == 0)
  /\ (watts row == 0 \/ (forall p, duty row p == 0) ->
      total_cost cfg cycle (row :: rows) == total_cost cfg cycle rows
      /\ total_kwh (bill cfg cycle (row :: rows)) == total_kwh (bill cfg cycle rows)).
Proof.
  assert (Hphase : forall p, watts row == 0 \/ duty row p == 0 ->
                             kwh cycle row p == 0).
  { intros p Hz. rewrite kwh_is_phase_energy. unfold phase_energy.
    destruct Hz as [-> | ->]; field. }
  split; [intros p Hp; apply Hphase; right; exact Hp |].
  intro Hidle.
  assert (Hall : forall p, kwh cycle row p == 0).
  { intro p. apply Hphase. destruct Hidle as [Hw | Hd]; [left | right]; auto. }
  destruct (bill_sums cfg cycle (row :: rows)) as (Ht & _).
  destruct (bill_sums cfg cycle rows) as (Ht' & _).
  assert (Hk : total_kwh (bill cfg cycle (row :: rows))
               == total_kwh (bill cfg cycle rows)).
  { rewrite Ht, Ht', Qsum_cons, !Hall. ring. }
  split; [| exact Hk]. unfold total_cost. py_unfold. rewrite Hk. reflexivity.
Qed.

(** The default air conditioner: 800 W, never on. *)
Lemma idle_row_costs_nothing_witness :
  let ac := add_device (num := Q) "AC Unit" 800 0.0 0.0 0.0 in
  kwh scenario_cycle ac FlowerPhase == 0
  /\ total_cost scenario_cfg scenario_cycle [ac; main_light]
     == total_cost scenario_cfg scenario_cycle [main_light].
Proof.
  cbv zeta.
  destruct (idle_row_costs_nothing scenario_cfg scenario_cycle
              (add_device (num := Q) "AC Unit" 800 0.0 0.0 0.0) [main_light])
    as [Hphase Hrow].
  split.
  - apply Hphase. reflexivity.
  - apply Hrow. right. intro p. destruct p; reflexivity.
Defined.

(** X5.  With no negative watts, duty cycles, days or price, no part of the bill
    is negative. *)
Theorem bill_is_not_negative (cfg : Config) (cycle : Cycle) (rows : list Device) :
  Forall sensible_row rows -> sensible_cycle cycle -> 0 <= kwh_cost cfg ->
  0 <= total_kwh (bill cfg cycle rows)
  /\ 0 <= Veg (phase_costs (bill cfg cycle rows))
  /\ 0 <= Flower (phase_costs (bill cfg cycle rows))
  /\ 0 <= Dry (phase_costs (bill cfg cycle rows))
  /\ 0 <= total_cost cfg cycle rows.
Proof.
  intros Hrows Hcycle Hcost.
  destruct (bill_sums cfg cycle rows) as (Ht & Hv & Hf & Hd).
  assert (Hk : 0 <= total_kwh (bill cfg cycle rows)).
  { rewrite Ht. apply Qsum_nonneg.
    eapply Forall_impl; [| exact Hrows]. intros r Hr. cbv beta.
    pose proof (kwh_nonneg VegPhase Hr Hcycle).
    pose proof (kwh_nonneg FlowerPhase Hr Hcycle).
    pose proof (kwh_nonneg DryPhase Hr Hcycle). lra. }
  assert (Hp : forall p, 0 <= Qsum (fun r => kwh cycle r p * kwh_cost cfg) rows).
  { intro p. apply Qsum_nonneg.
    eapply Forall_impl; [| exact Hrows]. intros r Hr. cbv beta.
    apply Qmult_le_0_compat; [apply kwh_nonneg; assumption | exact Hcost]. }
  split; [exact Hk |].
  split; [rewrite Hv; apply (Hp VegPhase) |].
  split; [rewrite Hf; apply (Hp FlowerPhase) |].
  split; [rewrite Hd; apply (Hp DryPhase) |].
  unfold total_cost. py_unfold. apply Qmult_le_0_compat; assumption.
Qed.

Lemma bill_is_not_negative_witness :
  0 <= total_cost scenario_cfg scenario_cycle [main_light; lower_case_light].
Proof.
  apply (@bill_is_not_negative scenario_cfg scenario_cycle
           [main_light; lower_case_light]).
  - repeat constructor; vm_compute; discriminate.
  - repeat constructor; vm_compute; discriminate.
  - vm_compute. discriminate.
Defined.

(** X6.  Of two rows with the same watts and duty cycles, the one billed as a
    light never uses more energy in any phase: 18, 12 and 0 hours against
    24. *)
Theorem light_never_costs_more (cycle : Cycle) (r r' : Device) (p : Phase) :
  is_light r = true -> is_light r' = false -> same_load r r' ->
  sensible_row r -> sensible_cycle cycle ->
  kwh cycle r p <= kwh cycle r' p.
Proof.
  intros Hl Hl' (Hw & Hv & Hf & Hd) (Hw0 & Hv0 & Hf0 & Hd0) (Hdv & Hdf & Hdd).
  rewrite !kwh_is_phase_energy. unfold phase_energy. rewrite Hl, Hl', <- Hw.
  destruct p; cbn [active_hours duty phase_days];
    [rewrite <- Hv | rewrite <- Hf | rewrite <- Hd];
    literal_division;
    match goal with
    | |- watts r * _ * ?d * ?n * _ <= _ =>
        assert (0 <= watts r * d) by nra;
        assert (0 <= watts r * d * n) by nra; nra
    end.
Qed.

Lemma light_never_costs_more_witness :
  kwh scenario_cycle main_light VegPhase
  <= kwh scenario_cycle (add_device (num := Q) "main light" 600 1.0 1.0 0.0) VegPhase.
Proof.
  apply (@light_never_costs_more scenario_cycle main_light
           (add_device (num := Q) "main light" 600 1.0 1.0 0.0) VegPhase).
  - reflexivity.
  - reflexivity.
  - repeat split; reflexivity.
  - repeat split; vm_compute; discriminate.
  - repeat split; vm_compute; discriminate.
Defined.

(** ** Further properties of the yield engine *)

Lemma light_eff_range (i : YieldInput) : 0 < light_eff i <= 1.
Proof. unfold light_eff. destruct (light_type i); py_unfold; lra. Qed.

Lemma med_eff_range (i : YieldInput) : 1 <= med_eff i <= 1.25.
Proof. unfold med_eff. destruct (system_type i); py_unfold; lra. Qed.

Lemma co2_mult_range (i : YieldInput) : 1 <= co2_mult i <= 1.25.
Proof. unfold co2_mult. destruct (co2_supplement i); py_unfold; lra. Qed.

Lemma root_eff_range (i : YieldInput) : 1 <= root_eff i <= 1.5.
Proof. unfold root_eff. destruct (system_type i); py_unfold; lra. Qed.

Lemma plant_ceiling_range (i : YieldInput) : 400 <= plant_ceiling i <= 800.
Proof. unfold plant_ceiling. destruct (strain_type i); py_unfold; lra. Qed.

Lemma py_len_count {A} (xs : list A) :
  py_len (num := Q) xs == inject_Z (Z.of_nat (List.length xs)).
Proof. reflexivity. Qed.

Lemma py_len_bounds {A} (xs : list A) (n : nat) :
  (List.length xs <= n)%nat ->
  0 <= py_len (num := Q) xs <= inject_Z (Z.of_nat n).
Proof.
  intro Hn. unfold py_len. py_unfold. split.
  - change 0 with (inject_Z 0). rewrite <- Zle_Qle. apply Nat2Z.is_nonneg.
  - rewrite <- Zle_Qle. apply Nat2Z.inj_le. exact Hn.
Qed.

Lemma training_fits (l : list Training) :
  NoDup l -> (List.length l <= 4)%nat.
Proof.
  intro Hl. change 4%nat with (List.length all_training).
  apply NoDup_incl_length; [exact Hl |].
  intros t _. destruct t; cbn; auto.
Qed.

(** X7.  The training multiplier is at least 1, at least 1.13 when the net is
    among the methods, and at most 1.37 for a selection without repeats. *)
Theorem train_mult_bounds (i : YieldInput) :
  1 <= train_mult i
  /\ (existsb is_scrog (training i) = true -> 1.13 <= train_mult i)
  /\ (NoDup (training i) -> train_mult i <= 1.37).
Proof.
  unfold train_mult.
  destruct (py_len_bounds (training i) (n := List.length (training i)) (le_n _))
    as [Hlen _].
  split; [| split].
  - destruct (existsb is_scrog (training i)); py_unfold; lra.
  - intro Hs. rewrite Hs.
    assert (Hone : 1 <= py_len (num := Q) (training i)).
    { unfold py_len. py_unfold. change 1 with (inject_Z 1). rewrite <- Zle_Qle.
      destruct (training i); [discriminate |]. cbn [List.length]. lia. }
    py_unfold. lra.
  - intro Hnd.
    destruct (py_len_bounds (training i) (training_fits Hnd)) as [_ Hfour].
    change (inject_Z (Z.of_nat 4)) with 4 in Hfour.
    destruct (existsb is_scrog (training i)); py_unfold; lra.
Qed.

Lemma train_mult_bounds_witness :
  train_mult (num := Q)
    {| length := 4; width := 4; system_type := Soil; true_watts := 600;
       light_type := HighEndLED; co2_supplement := false; plant_count := 4;
       pot_size := 5.0; strain_type := PhotoperiodFeminized;
       training := all_training |} <= 1.37.
Proof.
  destruct (train_mult_bounds
              {| length := 4; width := 4; system_type := Soil; true_watts := 600;
                 light_type := HighEndLED; co2_supplement := false;
                 plant_count := 4; pot_size := 5.0;
                 strain_type := PhotoperiodFeminized;
                 training := all_training |}) as (_ & _ & Hmax).
  apply Hmax. cbn [training all_training].
  repeat constructor; cbn; intuition discriminate.
Defined.

Lemma per_plant_max_is_min (i : YieldInput) :
  per_plant_max i == Qmin (plant_ceiling i) (30 + pot_size i * 35 * root_eff i).
Proof.
  unfold per_plant_max.
  destruct (Q.min_spec (plant_ceiling i) (30 + pot_size i * 35 * root_eff i))
    as [[Hlt ->]|[Hle ->]];
  match goal with
  | |- context [Py.ltb ?a ?b] => destruct (Qltb_cases a b) as [[-> H1]|[-> H1]]
  end; py_unfold; lra.
Qed.

(** X8.  No plant is credited with more than its ceiling, 800 grams and 400 for
    an autoflower, whatever the pot; the ceiling is reached exactly when
    30 + 35 x gallons x root efficiency is at least as large. *)
Theorem plant_never_exceeds_ceiling (i : YieldInput) :
  per_plant_max i <= plant_ceiling i
  /\ plant_ceiling i <= 800
  /\ (strain_type i = Autoflower -> per_plant_max i <= 400)
  /\ (per_plant_max i == plant_ceiling i
      <-> plant_ceiling i <= 30 + pot_size i * 35 * root_eff i)
  /\ (0 <= plant_count i -> limit_root_g i <= 800 * plant_count i).
Proof.
  pose proof (per_plant_max_is_min i) as Hmin.
  pose proof (plant_ceiling_range i) as [_ Hceil].
  assert (Hle : per_plant_max i <= plant_ceiling i)
    by (rewrite Hmin; apply Q.le_min_l).
  split; [exact Hle |]. split; [exact Hceil |]. split; [| split].
  - intro Hauto. unfold plant_ceiling in Hle. rewrite Hauto in Hle. exact Hle.
  - rewrite Hmin.
    destruct (Q.min_spec (plant_ceiling i) (30 + pot_size i * 35 * root_eff i))
      as [[Hlt ->]|[Hge ->]]; split; intro Hx; lra.
  - intro Hn. unfold limit_root_g. py_unfold.
    apply Qmult_le_compat_r; [lra | exact Hn].
Qed.

Lemma plant_never_exceeds_ceiling_witness :
  limit_root_g (scenario_input (num := Q)) <= 800 * 4.
Proof.
  destruct (plant_never_exceeds_ceiling (scenario_input (num := Q)))
    as (_ & _ & _ & _ & Hroot).
  apply Hroot. vm_compute. discriminate.
Defined.

(** The cap of line 120 takes the smaller of the two. *)
Lemma predicted_is_min (cfg : Config) (i : YieldInput) :
  predicted_yield_g cfg i == Qmin (uncapped_yield_g cfg i) (max_physics i).
Proof.
  change (predicted_yield_g cfg i)
    with (if Py.ltb (max_physics i) (uncapped_yield_g cfg i)
          then max_physics i else uncapped_yield_g cfg i).
  destruct (Q.min_spec (uncapped_yield_g cfg i) (max_physics i))
    as [[Hlt ->]|[Hle ->]];
  destruct (Qltb_cases (max_physics i) (uncapped_yield_g cfg i))
    as [[-> H1]|[-> H1]]; lra.
Qed.

Lemma product_nonneg3 (a b c : Q) : 0 <= a -> 0 <= b -> 0 <= c -> 0 <= a * b * c.
Proof.
  intros Ha Hb Hc. apply Qmult_le_0_compat; [apply Qmult_le_0_compat |]; assumption.
Qed.

Lemma product_pos3 (a b c : Q) : 0 < a -> 0 < b -> 0 < c -> 0 < a * b * c.
Proof.
  intros Ha Hb Hc. apply Qmult_lt_0_compat; [apply Qmult_lt_0_compat |]; assumption.
Qed.

(** Scaling by skill, training and medium keeps the order of two
    bottlenecks. *)
Lemma scaling_is_monotone (cfg : Config) (i : YieldInput) (b b' : Q) :
  0 <= grower_skill cfg -> b <= b' ->
  b * grower_skill cfg * train_mult i * med_eff i
  <= b' * grower_skill cfg * train_mult i * med_eff i.
Proof.
  intros Hs Hb.
  assert (Ht : 0 <= train_mult i).
  { unfold train_mult.
    destruct (py_len_bounds (training i) (n := List.length (training i)) (le_n _))
      as [Hlen _].
    destruct (existsb is_scrog (training i)); py_unfold; lra. }
  pose proof (med_eff_range i) as [Hm _].
  repeat apply Qmult_le_compat_r; try assumption; lra.
Qed.

Lemma per_plant_max_nonneg (i : YieldInput) :
  0 <= pot_size i -> 0 <= per_plant_max i.
Proof.
  intro Hp. rewrite per_plant_max_is_min.
  pose proof (plant_ceiling_range i) as [Hc _].
  pose proof (root_eff_range i) as [Hr _].
  apply Q.min_glb; [lra |].
  assert (0 <= pot_size i * 35 * root_eff i)
    by (apply product_nonneg3; lra).
  lra.
Qed.

Lemma limits_nonneg (cfg : Config) (i : YieldInput) :
  nothing_negative cfg i ->
  0 <= limit_light_g cfg i /\ 0 <= limit_space_g cfg i /\ 0 <= limit_root_g i.
Proof.
  intros (Hl & Hw & Ht & Hn & Hp & Hs & Hg & Hd).
  pose proof (light_eff_range i) as [He _].
  pose proof (co2_mult_range i) as [Hc _].
  split; [| split].
  - unfold limit_light_g. py_unfold.
    apply Qmult_le_0_compat; [apply product_nonneg3 |]; lra.
  - unfold limit_space_g, sq_ft. py_unfold. apply product_nonneg3; assumption.
  - unfold limit_root_g. py_unfold.
    apply Qmult_le_0_compat; [apply per_plant_max_nonneg |]; assumption.
Qed.

(** X9.  With nothing negative among the inputs, a tent without length or width,
    a light without watts or a grow without plants is predicted to yield
    nothing. *)
Theorem zero_dimension_zero_yield (cfg : Config) (i : YieldInput) :
  nothing_negative cfg i ->
  length i == 0 \/ width i == 0 \/ true_watts i == 0 \/ plant_count i == 0 ->
  bottleneck cfg i == 0 /\ predicted_yield_g cfg i == 0.
Proof.
  intros Hnn Hzero.
  destruct (limits_nonneg Hnn) as (Hl & Hs & Hr).
  destruct Hnn as (_ & _ & Hw & _).
  assert (Hb : bottleneck cfg i == 0).
  { rewrite bottleneck_is_least. unfold least_limit.
    assert (Hge : 0 <= Qmin (Qmin (limit_light_g cfg i) (limit_space_g cfg i))
                            (limit_root_g i))
      by (repeat apply Q.min_glb; assumption).
    assert (Hle : Qmin (Qmin (limit_light_g cfg i) (limit_space_g cfg i))
                       (limit_root_g i) <= 0).
    { pose proof (Q.le_min_l (Qmin (limit_light_g cfg i) (limit_space_g cfg i))
                             (limit_root_g i)) as H1.
      pose proof (Q.le_min_r (Qmin (limit_light_g cfg i) (limit_space_g cfg i))
                             (limit_root_g i)) as H2.
      pose proof (Q.le_min_l (limit_light_g cfg i) (limit_space_g cfg i)) as H3.
      pose proof (Q.le_min_r (limit_light_g cfg i) (limit_space_g cfg i)) as H4.
      destruct Hzero as [Hz|[Hz|[Hz|Hz]]].
      - assert (limit_space_g cfg i == 0)
          by (unfold limit_space_g, sq_ft; py_unfold; rewrite Hz; ring).
        lra.
      - assert (limit_space_g cfg i == 0)
          by (unfold limit_space_g, sq_ft; py_unfold; rewrite Hz; ring).
        lra.
      - assert (limit_light_g cfg i == 0)
          by (unfold limit_light_g; py_unfold; rewrite Hz; ring).
        lra.
      - assert (limit_root_g i == 0)
          by (unfold limit_root_g; py_unfold; rewrite Hz; ring).
        lra. }
    lra. }
  split; [exact Hb |].
  rewrite predicted_is_min. unfold uncapped_yield_g. rewrite Hb.
  unfold max_physics. py_unfold.
  destruct (Q.min_spec (0 * grower_skill cfg * train_mult i * med_eff i)
                       (true_watts i * 3.0)) as [[_ ->]|[Hle ->]].
  - ring.
  - assert (0 * grower_skill cfg * train_mult i * med_eff i == 0) by ring. lra.
Qed.

Lemma zero_dimension_zero_yield_witness :
  predicted_yield_g scenario_cfg
    {| length := 4; width := 4; system_type := Soil; true_watts := 600;
       light_type := HighEndLED; co2_supplement := false; plant_count := 0;
       pot_size := 5.0; strain_type := PhotoperiodFeminized; training := [] |}
  == 0.
Proof.
  apply (@zero_dimension_zero_yield scenario_cfg
           {| length := 4; width := 4; system_type := Soil; true_watts := 600;
              light_type := HighEndLED; co2_supplement := false;
              plant_count := 0; pot_size := 5.0;
              strain_type := PhotoperiodFeminized; training := [] |}).
  - repeat split; vm_compute; discriminate.
  - do 3 right. reflexivity.
Defined.

Lemma predicted_positive (cfg : Config) (i : YieldInput) :
  in_widget_range i -> positive_config cfg -> 0 < predicted_yield_g cfg i.
Proof.
  intros (Hl & Hw & Ht & Hn & Hp) (Hs & Hg & Hd).
  pose proof (light_eff_range i) as [He _].
  pose proof (co2_mult_range i) as [Hc _].
  pose proof (plant_ceiling_range i) as [Hceil _].
  pose proof (root_eff_range i) as [Hr _].
  pose proof (med_eff_range i) as [Hm _].
  assert (Htm : 0 < train_mult i).
  { unfold train_mult.
    destruct (py_len_bounds (training i) (n := List.length (training i)) (le_n _))
      as [Hlen _].
    destruct (existsb is_scrog (training i)); py_unfold; lra. }
  assert (Hlight : 0 < limit_light_g cfg i).
  { unfold limit_light_g. py_unfold.
    apply Qmult_lt_0_compat; [apply product_pos3 |]; lra. }
  assert (Hspace : 0 < limit_space_g cfg i).
  { unfold limit_space_g, sq_ft. py_unfold. apply product_pos3; lra. }
  assert (Hplant : 0 < per_plant_max i).
  { rewrite per_plant_max_is_min. apply Q.min_glb_lt; [lra |].
    assert (0 < pot_size i * 35 * root_eff i) by (apply product_pos3; lra).
    lra. }
  assert (Hroot : 0 < limit_root_g i).
  { unfold limit_root_g. py_unfold. apply Qmult_lt_0_compat; lra. }
  rewrite predicted_is_min. apply Q.min_glb_lt.
  - unfold uncapped_yield_g. rewrite bottleneck_is_least.
    apply Qmult_lt_0_compat; [apply product_pos3 |]; try lra.
    unfold least_limit. repeat apply Q.min_glb_lt; assumption.
  - unfold max_physics. py_unfold. lra.
Qed.

(** X10.  In exact arithmetic, inside the widgets' bounds and with positive
    calibration and skill the prediction is positive, so the guard of the
    cost per gram lets the division through: the cost per gram of any total
    is that total divided by the predicted grams, and times the predicted
    grams it gives back the total. *)
Theorem cost_per_gram_is_a_ratio (cfg : Config) (i : YieldInput) (total : Q) :
  in_widget_range i -> positive_config cfg ->
  0 < predicted_yield_g cfg i
  /\ exists cpg,
       cost_per_gram total (predicted_yield_g cfg i) = Ok cpg
       /\ cpg == total / predicted_yield_g cfg i
       /\ cpg * predicted_yield_g cfg i == total.
Proof.
  intros Hr Hc. pose proof (predicted_positive Hr Hc) as Hpos.
  split; [exact Hpos |].
  exists (total / predicted_yield_g cfg i).
  unfold cost_per_gram.
  destruct (Qltb_cases (lit 0) (predicted_yield_g cfg i)) as [[-> _]|[_ Hle]];
    [| py_unfold; lra].
  rewrite py_div_nonzero by lra.
  split; [reflexivity |]. split; [reflexivity |]. field. lra.
Qed.

Lemma cost_per_gram_is_a_ratio_witness :
  exists cpg,
    cost_per_gram 116.424 (predicted_yield_g scenario_cfg (scenario_input (num := Q)))
    = Ok cpg
    /\ cpg * predicted_yield_g scenario_cfg scenario_input == 116.424.
Proof.
  destruct (@cost_per_gram_is_a_ratio scenario_cfg scenario_input 116.424)
    as (_ & cpg & Hcpg & _ & Hback).
  - vm_compute. intuition discriminate.
  - vm_compute. intuition discriminate.
  - exists cpg. split; [exact Hcpg | exact Hback].
Defined.

(** X11.  The efficiency card never shows more than 3 grams per watt. *)
Theorem gpw_at_most_three (cfg : Config) (i : YieldInput) :
  0 < true_watts i -> ~ sq_ft i == 0 ->
  exists m, metrics cfg i = Ok m /\ m2_gpw m <= 3.
Proof.
  intros Hw Ha. eexists. split; [apply metrics_nonzero; [lra | exact Ha] |].
  cbn [m2_gpw]. apply Qle_shift_div_r; [exact Hw |].
  pose proof (predicted_le_max_physics cfg i) as Hcap.
  unfold max_physics in Hcap. py_unfold. lra.
Qed.

Lemma gpw_at_most_three_witness :
  exists m, metrics scenario_cfg (scenario_input (num := Q)) = Ok m
            /\ m2_gpw m <= 3.
Proof.
  apply (@gpw_at_most_three scenario_cfg scenario_input).
  - reflexivity.
  - vm_compute. discriminate.
Defined.

(** X12.  In exact arithmetic the canopy density card never shows more than
    the reference density times skill, training multiplier and medium
    efficiency. *)
Theorem density_at_most_reference (cfg : Config) (i : YieldInput) :
  0 < sq_ft i -> ~ true_watts i == 0 -> 0 <= grower_skill cfg ->
  exists m, metrics cfg i = Ok m
            /\ m3_density m
               <= MAX_G_PER_SQFT cfg * grower_skill cfg * train_mult i * med_eff i.
Proof.
  intros Ha Hw Hs.
  eexists. split; [apply metrics_nonzero; [exact Hw | lra] |].
  cbn [m3_density]. apply Qle_shift_div_r; [exact Ha |].
  pose proof (predicted_is_min cfg i) as Hmin.
  pose proof (Q.le_min_l (uncapped_yield_g cfg i) (max_physics i)) as Hle.
  assert (Hb : bottleneck cfg i <= limit_space_g cfg i).
  { rewrite bottleneck_is_least. unfold least_limit.
    eapply Qle_trans; [apply Q.le_min_l | apply Q.le_min_r]. }
  pose proof (scaling_is_monotone cfg i Hs Hb) as Hscaled.
  fold (uncapped_yield_g cfg i) in Hscaled.
  unfold limit_space_g in Hscaled. py_unfold.
  setoid_replace
    (MAX_G_PER_SQFT cfg * grower_skill cfg * train_mult i * med_eff i * sq_ft i)
    with (sq_ft i * MAX_G_PER_SQFT cfg * grower_skill cfg * train_mult i * med_eff i)
    by ring.
  lra.
Qed.

Lemma density_at_most_reference_witness :
  exists m, metrics scenario_cfg (scenario_input (num := Q)) = Ok m
            /\ m3_density m <= 65.0 * 1.0 * 1.0 * 1.0.
Proof.
  destruct (@density_at_most_reference scenario_cfg scenario_input)
    as (m & Hm & Hd);
    [reflexivity | vm_compute; discriminate | vm_compute; discriminate |].
  exists m. split; [exact Hm |].
  eapply Qle_trans; [exact Hd |]. vm_compute. discriminate.
Defined.

Lemma predicted_from_least (cfg : Config) (i : YieldInput) :
  predicted_yield_g cfg i
  == Qmin (least_limit cfg i * grower_skill cfg * train_mult i * med_eff i)
          (true_watts i * 3.0).
Proof.
  rewrite predicted_is_min. unfold uncapped_yield_g.
  rewrite bottleneck_is_least. reflexivity.
Qed.

Lemma Qmin_mono_l (a b c : Q) : a <= b -> Qmin a c <= Qmin b c.
Proof.
  intro Hab.
  destruct (Q.min_spec a c) as [[H0 ->]|[H0 ->]];
  destruct (Q.min_spec b c) as [[H1 ->]|[H1 ->]]; lra.
Qed.

(** X13.  Ticking the CO2 box never lowers the prediction (watts, reference
    efficiency and skill not being negative), and changes nothing unless
    light was the single bottleneck. *)
Theorem co2_never_lowers_yield (cfg : Config) (i : YieldInput) :
  0 <= true_watts i -> 0 <= GRAMS_PER_WATT_LED cfg -> 0 <= grower_skill cfg ->
  predicted_yield_g cfg (with_co2 false i) <= predicted_yield_g cfg (with_co2 true i)
  /\ (Qmin (limit_space_g cfg i) (limit_root_g i)
        <= limit_light_g cfg (with_co2 false i) ->
      predicted_yield_g cfg (with_co2 true i)
      == predicted_yield_g cfg (with_co2 false i)).
Proof.
  intros Hw Hg Hs.
  pose proof (light_eff_range i) as [He _].
  set (S := limit_space_g cfg i). set (R := limit_root_g i).
  set (L0 := limit_light_g cfg (with_co2 false i)).
  set (L1 := limit_light_g cfg (with_co2 true i)).
  assert (HL : L0 <= L1).
  { unfold L0, L1, limit_light_g, co2_mult.
    cbn [co2_supplement true_watts with_co2].
    change (light_eff (with_co2 true i)) with (light_eff i).
    change (light_eff (with_co2 false i)) with (light_eff i).
    py_unfold.
    assert (0 <= true_watts i * GRAMS_PER_WATT_LED cfg * light_eff i)
      by (apply product_nonneg3; lra).
    nra. }
  assert (Hleast : forall b,
             least_limit cfg (with_co2 b i)
             == Qmin (Qmin (limit_light_g cfg (with_co2 b i)) S) R)
    by (intro b; reflexivity).
  assert (Hpred : forall b,
             predicted_yield_g cfg (with_co2 b i)
             == Qmin (Qmin (Qmin (limit_light_g cfg (with_co2 b i)) S) R
                      * grower_skill cfg * train_mult i * med_eff i)
                     (true_watts i * 3.0)).
  { intro b. rewrite predicted_from_least, Hleast. reflexivity. }
  rewrite !Hpred. fold L0 L1. split.
  - apply Qmin_mono_l. apply scaling_is_monotone; [exact Hs |].
    apply Qmin_mono_l. apply Qmin_mono_l. exact HL.
  - intro Hother.
    assert (Hsame : Qmin (Qmin L1 S) R == Qmin (Qmin L0 S) R).
    { destruct (Q.min_spec S R) as [[H1 E1]|[H1 E1]]; rewrite E1 in Hother;
      destruct (Q.min_spec L0 S) as [[H2 ->]|[H2 ->]];
      destruct (Q.min_spec L1 S) as [[H3 ->]|[H3 ->]];
      try lra;
      repeat match goal with
             | |- context [Qmin ?a ?b] =>
                 destruct (Q.min_spec a b) as [[? ->]|[? ->]]
             end; lra. }
    rewrite Hsame. reflexivity.
Qed.

Lemma co2_never_lowers_yield_witness :
  predicted_yield_g scenario_cfg (with_co2 false scenario_input)
  <= predicted_yield_g scenario_cfg (with_co2 true scenario_input)
  /\ predicted_yield_g scenario_cfg (with_co2 true scenario_input)
     == predicted_yield_g scenario_cfg (with_co2 false scenario_input).
Proof.
  destruct (@co2_never_lowers_yield scenario_cfg scenario_input)
    as [Hle Hsame]; try (vm_compute; discriminate).
  split; [exact Hle |]. apply Hsame. vm_compute. discriminate.
Defined.

(** ** Further properties of the extraction engine *)

(** X14.  In exact arithmetic, inside the sliders' bounds, dry cured flower
    returns between 10% and 30% of a non-negative input mass as rosin;
    fresh frozen material washes to between 1% and 8% of it as hash and
    presses to between 0.4% and 7.2% of it as rosin. *)
Theorem rosin_within_slider_bounds (input_g : Q) (params : ExtractionParams) :
  0 <= input_g -> in_slider_range params ->
  (material_of params = DryCuredFlower ->
   0.10 * input_g <= rosin_g (extraction input_g params) <= 0.30 * input_g)
  /\ (material_of params = FreshFrozenWPFF ->
      exists h, hash_g (extraction input_g params) = Some h
                /\ 0.01 * input_g <= h <= 0.08 * input_g
                /\ 0.004 * input_g <= rosin_g (extraction input_g params)
                   <= 0.072 * input_g).
Proof.
  intros Hx Hr.
  destruct params as [r|w p];
    cbn [extraction hash_g rosin_g in_slider_range material_of] in *;
    (split; intro Hm; try discriminate); py_unfold.
  - literal_division. split; nra.
  - destruct Hr as [[Hw0 Hw1] [Hp0 Hp1]].
    eexists. split; [reflexivity |].
    literal_division.
    assert (Hh : 0.01 * input_g <= input_g * (w * (1 # 100)) <= 0.08 * input_g)
      by (split; nra).
    split; [exact Hh |].
    generalize dependent (input_g * (w * (1 # 100))). intros h [Hh0 Hh1].
    split; nra.
Qed.

Lemma rosin_within_slider_bounds_witness :
  0.10 * 820 <= rosin_g (extraction 820 (PressReturn 20)) <= 0.30 * 820
  /\ 0.004 * 820 <= rosin_g (extraction 820 (WashAndPress 4.0 75)) <= 0.072 * 820.
Proof.
  split.
  - destruct (@rosin_within_slider_bounds 820 (PressReturn 20)) as [Hdry _];
      [vm_compute; discriminate | vm_compute; intuition discriminate |].
    apply Hdry. reflexivity.
  - destruct (@rosin_within_slider_bounds 820 (WashAndPress 4.0 75))
      as [_ Hfrozen];
      [vm_compute; discriminate | vm_compute; intuition discriminate |].
    destruct Hfrozen as (h & _ & _ & Hrosin); [reflexivity | exact Hrosin].
Defined.

(** X15.  The input box starts at the predicted yield: the default in ounces,
    taken back to grams, is the prediction, and extraction from it is
    extraction from the prediction. *)
Theorem default_input_is_the_prediction (predicted : Q) (params : ExtractionParams) :
  input_g (input_amount_oz_default predicted) == predicted
  /\ rosin_g (extraction (input_g (input_amount_oz_default predicted)) params)
     == rosin_g (extraction predicted params).
Proof.
  assert (Hback : input_g (input_amount_oz_default predicted) == predicted)
    by (unfold input_g, input_amount_oz_default; py_unfold; field).
  split; [exact Hback |].
  destruct params; cbn [extraction rosin_g]; py_unfold; rewrite Hback; reflexivity.
Qed.

(** In binary64 the same round trip is exact at the scenario's 820 grams. *)
Remark binary64_default_input :
  input_g (input_amount_oz_default (lit 820 : float)) = lit 820.
Proof. vm_compute. reflexivity. Qed.

(** ** Further properties of the recommender *)

Lemma tier_labels_differ (t t' : Tier) : tier_labels t = tier_labels t' -> t = t'.
Proof. destruct t, t'; intro Hl; (reflexivity || discriminate). Qed.

(** The tier chosen for a target, by the target's grams. *)
Lemma configuration_by_grams (g : Q) :
  (g < 200 /\ configuration (req_sqft g) = tier_labels Tier1)
  \/ (200 <= g < 400 /\ configuration (req_sqft g) = tier_labels Tier2)
  \/ (400 <= g < 680 /\ configuration (req_sqft g) = tier_labels Tier3)
  \/ (680 <= g < 1040 /\ configuration (req_sqft g) = tier_labels Tier4)
  \/ (1040 <= g /\ configuration (req_sqft g) = tier_labels Tier5).
Proof.
  destruct (configuration_cases (req_sqft g))
    as [[Ha Hc]|[[Ha Hc]|[[Ha Hc]|[[Ha Hc]|[Ha Hc]]]]];
    unfold req_sqft in Ha; py_unfold; literal_division;
    [left | right; left | do 2 right; left | do 3 right; left | do 4 right];
    (split; [lra | exact Hc]).
Qed.

(** X16.  The tiers change at targets of 200, 400, 680 and 1040 grams. *)
Theorem tier_thresholds_in_grams (g : Q) :
  let c := configuration (req_sqft g) in
  (c = tier_labels Tier1 <-> g < 200)
  /\ (c = tier_labels Tier2 <-> 200 <= g < 400)
  /\ (c = tier_labels Tier3 <-> 400 <= g < 680)
  /\ (c = tier_labels Tier4 <-> 680 <= g < 1040)
  /\ (c = tier_labels Tier5 <-> 1040 <= g).
Proof.
  cbv zeta.
  destruct (configuration_by_grams g)
    as [[Hg Hc]|[[Hg Hc]|[[Hg Hc]|[[Hg Hc]|[Hg Hc]]]]];
    rewrite Hc;
    (split; [| split; [| split; [| split]]]);
    (split; intro Hx;
     first [ reflexivity
           | apply tier_labels_differ in Hx; discriminate
           | lra
           | split; lra
           | exfalso; lra
           | destruct Hx; exfalso; lra ]).
Qed.

(** X17.  In the first four tiers the minimum light shown stays below the
    lower wattage of the light suggested beside it: under 200 W, 300 W,
    600 W and 800 W. *)
Theorem minimum_light_below_suggestion (g : Q) :
  let c := configuration (req_sqft g) in
  (c = tier_labels Tier1 -> req_watts g < 200)
  /\ (c = tier_labels Tier2 -> req_watts g < 300)
  /\ (c = tier_labels Tier3 -> req_watts g < 600)
  /\ (c = tier_labels Tier4 -> req_watts g < 800).
Proof.
  cbv zeta.
  destruct (configuration_by_grams g)
    as [[Hg Hc]|[[Hg Hc]|[[Hg Hc]|[[Hg Hc]|[Hg Hc]]]]];
    rewrite Hc; unfold req_watts; py_unfold; literal_division;
    (split; [| split; [| split]]); intro Hx;
    first [ lra | apply tier_labels_differ in Hx; discriminate ].
Qed.

Lemma minimum_light_below_suggestion_witness :
  req_watts (target_g Pounds (1 : Q)) < 600.
Proof.
  destruct (minimum_light_below_suggestion (target_g Pounds (1 : Q)))
    as (_ & _ & Hthree & _).
  apply Hthree. vm_compute. reflexivity.
Defined.

(** X18.  In exact arithmetic the pound of the script is lighter than
    sixteen of its ounces (453.59 against 16 x 28.35 = 453.6 grams), so a
    positive mass entered in pounds gives a smaller target than the same
    mass entered in ounces; 0.88184 pounds gets a smaller tent than the
    same 14.10944 ounces. *)
Theorem pound_is_short_of_sixteen_ounces (target_val : Q) :
  (0 < target_val ->
   target_g Pounds target_val < target_g Ounces (16 * target_val))
  /\ tent_rec (req_sqft (target_g Pounds 0.88184)) = "3x3 or 2x4 Tent"
  /\ tent_rec (req_sqft (target_g Ounces (16 * 0.88184))) = "4x4 Tent".
Proof.
  split.
  - intro Hv. cbn [target_g]. py_unfold. lra.
  - split; vm_compute; reflexivity.
Qed.

Lemma pound_is_short_of_sixteen_ounces_witness :
  target_g Pounds (1 : Q) < target_g Ounces (16 * 1).
Proof.
  destruct (pound_is_short_of_sixteen_ounces 1) as (Hlt & _).
  apply Hlt. reflexivity.
Defined.

(** The interpreter agrees on both tents. *)
Remark binary64_pound_and_ounces :
  tent_rec (req_sqft (target_g Pounds (lit 0.88184 : float))) = "3x3 or 2x4 Tent"
  /\ tent_rec (req_sqft (target_g Ounces (Py.mul (lit 16) (lit 0.88184 : float))))
     = "4x4 Tent"
  /\ Py.ltb (target_g Pounds (lit 1.0 : float))
            (target_g Ounces (Py.mul (lit 16) (lit 1.0 : float))) = true.
Proof. repeat split; vm_compute; reflexivity. Qed.

(** ** The table with an unnamed row *)





(** ** Where exact arithmetic and the interpreter part *)

(** The default table, and the same table with the clip fans and the
    dehumidifier exchanged. *)
Remark binary64_bill_depends_on_row_order :
  let rows := default_devices (lit 600 : float) in
  let exchanged :=
    [ add_device "Main Grow Light" (lit 600) (lit 1.0) (lit 1.0) (lit 0.0);
      add_device "Inline Fan (Exhaust)" (lit 60) (lit 0.5) (lit 1.0) (lit 0.5);
      add_device "Dehumidifier" (lit 400) (lit 0.1) (lit 0.4) (lit 0.3);
      add_device "Clip Fans" (lit 30) (lit 1.0) (lit 1.0) (lit 1.0);
      add_device "AC Unit" (lit 800) (lit 0.0) (lit 0.0) (lit 0.0);
      add_device "Humidifier" (lit 50) (lit 0.5) (lit 0.1) (lit 0.0);
      add_device "Heater" (lit 1000) (lit 0.0) (lit 0.0) (lit 0.0) ] in
  Py.eqb (total_cost scenario_cfg scenario_cycle rows)
         (total_cost scenario_cfg scenario_cycle exchanged) = false
  /\ exists q q',
       float_to_Q (total_cost scenario_cfg scenario_cycle rows) = Some q
       /\ float_to_Q (total_cost scenario_cfg scenario_cycle exchanged) = Some q'
       /\ Qabs (q - q') <= 1 # 1000000000000.
Proof.
  cbv zeta. split; [vm_compute; reflexivity |].
  eexists. eexists. split; [vm_compute; reflexivity |].
  split; [vm_compute; reflexivity |]. vm_compute. discriminate.
Qed.
